(** * Random Wikipedia article plugin: heading extraction, acquisition loop
      and note rendering

    A shallow embedding of [RandomWikipediaArticlePlugin] (the settings-aware
    version of the plugin): [getProcessedDisallowedHeaders],
    [parseWikipediaHtml], [fetchAndProcessRandomWikipediaArticle],
    [formatMarkdown], the command [handleInsertArticle] and the number
    fields of the settings tab.

    - Strings are [string]; numbers that are counters or settings are [Z] or
      [nat]; a heading level is a [number], which can be [NaN] since it comes
      out of [parseInt].
    - The DOM is a tree of nodes.  An element reference is the path of the
      element from the document node; [remove()] marks the element as no
      longer attached to its parent, so that every reference held by the
      static node list stays valid and sees the mutation.
    - The acquisition loop runs in a state-and-exception monad over the
      loop's local variables and the trace of effects (notices, console
      errors, network calls, timeouts).  The network is an oracle giving the
      outcome of each call of each attempt.
    - The command runs in a monad over the list of its actions; the vault
      and the workspace are an oracle giving the answer of each call. *)

From Stdlib Require Import List String Ascii ZArith Lia Bool Arith DecimalString FinFun.
From Stdlib Require DecimalPos.
From Equations Require Import Equations.
Import ListNotations.
Local Open Scope string_scope.
Local Open Scope list_scope.

(* ===================================================================== *)
(** * JavaScript values and built-ins *)
(* ===================================================================== *)

(** A JavaScript number as the code produces them for a heading level: an
    integer, or the not-a-number value [parseInt] gives when there is no
    digit to read. *)
Inductive number :=
| NaN
| Num (z : Z).

(** [a === b] on numbers: [NaN] is not equal to anything, itself included. *)
Definition strict_eq (a b : number) : bool :=
  match a, b with
  | Num x, Num y => Z.eqb x y
  | _, _ => false
  end.

(** Errors that can be thrown inside the loop or by the renderer. *)
Inductive error :=
| FetchFailed                      (* fetch() rejects: no network, DNS, CORS... *)
| Error (message : string)         (* throw new Error(message) *)
| SyntaxError                      (* response.json() rejects *)
| TypeError                        (* property read on undefined *)
| URIError                         (* encodeURIComponent on a lone surrogate *)
| RangeError.                      (* String.prototype.repeat with a negative count *)

Inductive result (A : Type) :=
| Ok (a : A)
| Throw (e : error).
Arguments Ok {A} a.
Arguments Throw {A} e.

(** [s.substring(n)] *)
Fixpoint substring_from (n : nat) (s : string) : string :=
  match n, s with
  | O, _ => s
  | S n', String _ s' => substring_from n' s'
  | S _, EmptyString => EmptyString
  end.

(** [s.split(c)] for a one-character separator. *)
Fixpoint split (sep : ascii) (s : string) : list string :=
  match s with
  | EmptyString => [EmptyString]
  | String c s' =>
      if Ascii.eqb c sep then EmptyString :: split sep s'
      else match split sep s' with
           | h :: t => String c h :: t
           | [] => [String c EmptyString]
           end
  end.

(** [array.includes(x)] on an array of strings. *)
Definition includes (l : list string) (x : string) : bool :=
  existsb (String.eqb x) l.

(** [String(n)] for an integer. *)
Definition string_of_Z (z : Z) : string := NilZero.string_of_int (Z.to_int z).
Definition string_of_nat (n : nat) : string := string_of_Z (Z.of_nat n).

Definition code (c : ascii) : Z := Z.of_nat (nat_of_ascii c).

(** White space of the ASCII range: TAB, LF, VT, FF, CR and SPACE. *)
Definition is_space (c : ascii) : bool :=
  let n := code c in
  (((9 <=? n) && (n <=? 13)) || (n =? 32))%Z.

Fixpoint skip_spaces (s : string) : string :=
  match s with
  | String c s' => if is_space c then skip_spaces s' else s
  | EmptyString => EmptyString
  end.

Definition digit_value (radix : Z) (c : ascii) : option Z :=
  let n := code c in
  let v := if ((48 <=? n) && (n <=? 57))%Z then Some (n - 48)%Z
           else if ((97 <=? n) && (n <=? 122))%Z then Some (n - 87)%Z
           else if ((65 <=? n) && (n <=? 90))%Z then Some (n - 55)%Z
           else None in
  match v with
  | Some d => if (d <? radix)%Z then Some d else None
  | None => None
  end.

(** The value of the longest prefix of digits, [None] when it is empty. *)
Fixpoint read_digits (radix : Z) (s : string) (acc : option Z) : option Z :=
  match s with
  | EmptyString => acc
  | String c s' =>
      match digit_value radix c with
      | Some d =>
          read_digits radix s'
            (Some (radix * match acc with Some a => a | None => 0 end + d)%Z)
      | None => acc
      end
  end.

(** [parseInt(s)] with no radix argument: leading white space, an optional
    sign, an optional [0x] prefix, then the longest run of digits; [NaN]
    when no digit follows. *)
Definition parseInt (s : string) : number :=
  let s := skip_spaces s in
  let '(sign, s) :=
    match s with
    | String "-" s' => ((-1)%Z, s')
    | String "+" s' => (1%Z, s')
    | _ => (1%Z, s)
    end in
  let '(radix, s) :=
    match s with
    | String "0" (String "x" s') => (16%Z, s')
    | String "0" (String "X" s') => (16%Z, s')
    | _ => (10%Z, s)
    end in
  match read_digits radix s None with
  | Some z => Num (sign * z)
  | None => NaN
  end.

(** ['#'.repeat(count)]: the count is truncated to an integer ([NaN] gives
    0) and a negative count throws a [RangeError]. *)
Fixpoint replicate (n : nat) (s : string) : string :=
  match n with
  | O => EmptyString
  | S n' => (s ++ replicate n' s)%string
  end.

Definition repeat (s : string) (count : number) : result string :=
  match count with
  | NaN => Ok EmptyString
  | Num z => if (z <? 0)%Z then Throw RangeError else Ok (replicate (Z.to_nat z) s)
  end.

(* ===================================================================== *)
(** * The DOM *)
(* ===================================================================== *)

(** A node of the document tree.  [tagName] is the name as the DOM gives
    it for an HTML element, in upper case.  [attached] tells whether the
    element is still a child of its parent: [remove()] clears it.  A child
    that is not attached is not seen by [textContent] nor by the selectors
    of its former ancestors, but the element and its own subtree live on
    for whoever holds a reference to it. *)
Unset Elimination Schemes.
Inductive node :=
| Text (data : string)
| Comment (data : string)
| Element (attached : bool) (tagName : string) (classList : list string)
          (childNodes : list node).
Set Elimination Schemes.

Section node_induction.
Variable P : node -> Prop.
Hypothesis P_text : forall d, P (Text d).
Hypothesis P_comment : forall d, P (Comment d).
Hypothesis P_element : forall a t c ch, Forall P ch -> P (Element a t c ch).

Fixpoint node_ind (n : node) : P n :=
  match n with
  | Text d => P_text d
  | Comment d => P_comment d
  | Element a t c ch =>
      P_element a t c ch
        ((fix children (l : list node) : Forall P l :=
            match l with
            | [] => Forall_nil P
            | x :: l' => Forall_cons x (node_ind x) (children l')
            end) ch)
  end.
End node_induction.

(** A reference to a node: the child indices leading to it. *)
Definition path := list nat.

Definition isAttached (n : node) : bool :=
  match n with
  | Element a _ _ _ => a
  | _ => true
  end.

Definition tagNameOf (n : node) : string :=
  match n with
  | Element _ t _ _ => t
  | _ => EmptyString
  end.

Definition hasTag (tags : list string) (n : node) : bool :=
  match n with
  | Element _ t _ _ => includes tags t
  | _ => false
  end.

(** Dereference. *)
Fixpoint subtree (p : path) (n : node) : option node :=
  match p with
  | [] => Some n
  | i :: p' =>
      match n with
      | Element _ _ _ ch =>
          match nth_error ch i with
          | Some c => subtree p' c
          | None => None
          end
      | _ => None
      end
  end.

(** [node.textContent]: the text of the attached descendants, in order. *)
Fixpoint textContent (n : node) : string :=
  match n with
  | Text d => d
  | Comment _ => EmptyString
  | Element _ _ _ ch =>
      (fix children (l : list node) : string :=
         match l with
         | [] => EmptyString
         | c :: l' =>
             ((if isAttached c then textContent c else EmptyString)
              ++ children l')%string
         end) ch
  end.

(** The path [p] seen from the parent of the list it indexes, one place
    further to the right. *)
Definition bump (p : path) : path :=
  match p with
  | i :: p' => S i :: p'
  | [] => []
  end.

(** [node.querySelectorAll(sel)]: the attached descendant elements that
    match, in document order. *)
Fixpoint querySelectorAll (sel : node -> bool) (n : node) : list path :=
  match n with
  | Element _ _ _ ch =>
      (fix children (l : list node) : list path :=
         match l with
         | [] => []
         | c :: l' =>
             (if isAttached c
              then (if sel c then [[O]] else [])
                   ++ map (cons O) (querySelectorAll sel c)
              else [])
             ++ map bump (children l')
         end) ch
  | _ => []
  end.

(** [node.querySelector(sel)]: the first match in document order. *)
Definition querySelector (sel : node -> bool) (n : node) : option path :=
  hd_error (querySelectorAll sel n).

Fixpoint update_nth (i : nat) (f : node -> node) (l : list node) {struct l}
  : list node :=
  match l, i with
  | [], _ => []
  | x :: l', O => f x :: l'
  | x :: l', S i' => x :: update_nth i' f l'
  end.

(** [el.remove()] for the element at path [p] of [n]. *)
Fixpoint remove (p : path) (n : node) : node :=
  match p, n with
  | [], Element _ t c ch => Element false t c ch
  | i :: p', Element a t c ch => Element a t c (update_nth i (remove p') ch)
  | _, _ => n
  end.

(** ** The same functions on a list of children *)

Definition textChildren : list node -> string :=
  fix children (l : list node) : string :=
    match l with
    | [] => EmptyString
    | c :: l' =>
        ((if isAttached c then textContent c else EmptyString)
         ++ children l')%string
    end.

Definition queryChildren (sel : node -> bool) : list node -> list path :=
  fix children (l : list node) : list path :=
    match l with
    | [] => []
    | c :: l' =>
        (if isAttached c
         then (if sel c then [[O]] else [])
              ++ map (cons O) (querySelectorAll sel c)
         else [])
        ++ map bump (children l')
    end.

(** ** Text outside the elements that match a selector *)

(** The text of the attached descendants of [n] that are not inside a
    descendant matching [sel]: what [textContent] would give if every such
    descendant were taken out. *)
Fixpoint textOutside (sel : node -> bool) (n : node) : string :=
  match n with
  | Text d => d
  | Comment _ => EmptyString
  | Element _ _ _ ch =>
      (fix children (l : list node) : string :=
         match l with
         | [] => EmptyString
         | c :: l' =>
             ((if isAttached c && negb (sel c)
               then textOutside sel c else EmptyString)
              ++ children l')%string
         end) ch
  end.

Definition textOutsideChildren (sel : node -> bool) : list node -> string :=
  fix children (l : list node) : string :=
    match l with
    | [] => EmptyString
    | c :: l' =>
        ((if isAttached c && negb (sel c)
          then textOutside sel c else EmptyString)
         ++ children l')%string
    end.

(** A selector that looks at the tag and the classes of an element only. *)
Definition shallow (sel : node -> bool) : Prop :=
  (forall d, sel (Text d) = false) /\
  (forall d, sel (Comment d) = false) /\
  (forall a a' t c ch ch',
      sel (Element a t c ch) = sel (Element a' t c ch')).

(** ** A document and what removals have left of it *)

(** [m] is what is left of [m0]: the same tag, the same text outside the
    matching elements, no more matching descendants. *)
Definition shrunk (sel : node -> bool) (m0 m : node) : Prop :=
  tagNameOf m = tagNameOf m0
  /\ textOutside sel m = textOutside sel m0
  /\ List.length (querySelectorAll sel m) <= List.length (querySelectorAll sel m0).

(** Every reference into [doc0] resolves in [doc], to what is left of the
    node it had in [doc0]. *)
Definition tracks (sel : node -> bool) (doc0 doc : node) : Prop :=
  forall p m0, subtree p doc0 = Some m0 ->
  exists m, subtree p doc = Some m /\ shrunk sel m0 m.

(* ===================================================================== *)
(** * The platform *)
(* ===================================================================== *)

(** What the browser and the language runtime provide and the plugin calls:
    the HTML parser of [DOMParser], the matching of class selectors, the
    Unicode-aware string methods, and the two URL encoders.  Every
    statement below holds for any implementation of them. *)
Class Platform := {
  (** [new DOMParser().parseFromString(s, 'text/html')]: the document node. *)
  parseFromString : string -> node;
  (** Whether the class selector [.cls] matches an element with the given
      class list: some class of the list is [cls], compared as written,
      or without regard to the case of ASCII letters when the document
      is in quirks mode, as one parsed from markup with no doctype is. *)
  matchesClass : string -> list string -> bool;
  (** [s.trim()] *)
  trim : string -> string;
  (** [s.toLowerCase()] *)
  toLowerCase : string -> string;
  (** [encodeURIComponent(s)], which throws a [URIError] on a string that
      is not well-formed UTF-16. *)
  encodeURIComponent : string -> option string;
  (** How [URLSearchParams] serialises a value inside [url.toString()]. *)
  formUrlEncode : string -> string
}.

(* ===================================================================== *)
(** * Settings and heading records *)
(* ===================================================================== *)

Record RandomWikipediaArticleSettings := {
  minHeaders : Z;
  maxRetries : Z;
  disallowedHeaders : string;
  noteFolder : string
}.

Definition DEFAULT_SETTINGS : RandomWikipediaArticleSettings := {|
  minHeaders := 3;
  maxRetries := 15;
  disallowedHeaders := "See also, References, Further reading, External links, Notes, Contents, Source, Gallery, Additional sources, Other websites, Citations, Works cited, Footnotes, Links, Sources, Related, Bibliography";
  noteFolder := ""
|}.

Record ParsedHeader := {
  level : number;
  text : string
}.

(* ===================================================================== *)
(** * Heading extraction *)
(* ===================================================================== *)

Section Extraction.
Context {platform : Platform}.
Variable settings : RandomWikipediaArticleSettings.

Definition getProcessedDisallowedHeaders : list string :=
  map toLowerCase
    (filter (fun h => (0 <? String.length h)%nat)
       (map trim (split "," (disallowedHeaders settings)))).

Definition hasClass (cls : string) (n : node) : bool :=
  match n with
  | Element _ _ c _ => matchesClass cls c
  | _ => false
  end.

(** The selectors of [parseWikipediaHtml]. *)
Definition mw_parser_output : node -> bool := hasClass "mw-parser-output".
Definition mw_editsection : node -> bool := hasClass "mw-editsection".
Definition h2_h3_h4 : node -> bool := hasTag ["H2"; "H3"; "H4"].

(** The static node list [headingElements]: references into the document. *)
Definition headingElements (doc : node) : list path :=
  match querySelector mw_parser_output doc with
  | Some parserOutputDiv =>
      match subtree parserOutputDiv doc with
      | Some div => map (app parserOutputDiv) (querySelectorAll h2_h3_h4 div)
      | None => []
      end
  | None => querySelectorAll h2_h3_h4 doc
  end.

(** First half of the [forEach] callback: the level and the text of one
    heading element.  The edit span, when there is one, is removed from the
    document itself and the text is read again.  ([textContent] of an
    element is never null and [s || ''] is [s] for a string.)  A reference
    of the node list always resolves, see [heading_resolves]. *)
Definition readHeading (doc : node) (headingEl : path)
  : node * option (number * string) :=
  match subtree headingEl doc with
  | None => (doc, None)
  | Some el =>
      let lvl := parseInt (substring_from 1 (tagNameOf el)) in
      let txt := trim (textContent el) in
      match querySelector mw_editsection el with
      | Some editSpan =>
          let doc' := remove (headingEl ++ editSpan) doc in
          let txt' :=
            match subtree headingEl doc' with
            | Some el' => trim (textContent el')
            | None => txt
            end in
          (doc', Some (lvl, txt'))
      | None => (doc, Some (lvl, txt))
      end
  end.

(** The (level, text) pairs the callback reads along the node list, in
    order, with the document passing from one call to the next. *)
Fixpoint readHeadings (doc : node) (headingEls : list path)
  : list (number * string) :=
  match headingEls with
  | [] => []
  | headingEl :: rest =>
      let '(doc', h) := readHeading doc headingEl in
      match h with
      | Some h => h :: readHeadings doc' rest
      | None => readHeadings doc' rest
      end
  end.

(** What the heading at [el] reads as once every edit span is out of it. *)
Definition headingOutsideEdit (el : node) : number * string :=
  (parseInt (substring_from 1 (tagNameOf el)),
   trim (textOutside mw_editsection el)).

(** Second half of the callback: the exclusion and the duplicate rules. *)
Definition pushHeader (processedDisallowedHeaders : list string)
    (headers : list ParsedHeader) (h : number * string) : list ParsedHeader :=
  let '(lvl, txt) := h in
  if includes processedDisallowedHeaders (toLowerCase txt) then headers
  else if negb (existsb (fun h => String.eqb (text h) txt
                                  && strict_eq (level h) lvl) headers)
       then headers ++ [{| level := lvl; text := txt |}]
       else headers.

(** What the two rules maintain of the array: no record twice, none with
    a disallowed text. *)
Definition kept (processedDisallowedHeaders : list string)
    (headers : list ParsedHeader) : Prop :=
  NoDup headers
  /\ Forall (fun h => ~ In (toLowerCase (text h)) processedDisallowedHeaders)
       headers.

(** The callback of [headingElements.forEach], on the document and the
    array being filled. *)
Definition forEachHeading (processedDisallowedHeaders : list string)
    (st : node * list ParsedHeader) (headingEl : path)
  : node * list ParsedHeader :=
  let '(doc, headers) := st in
  match readHeading doc headingEl with
  | (doc', Some h) => (doc', pushHeader processedDisallowedHeaders headers h)
  | (doc', None) => (doc', headers)
  end.

Definition parseWikipediaHtml (htmlContent : string) : list ParsedHeader :=
  let doc := parseFromString htmlContent in
  let processedDisallowedHeaders := getProcessedDisallowedHeaders in
  snd (fold_left (forEachHeading processedDisallowedHeaders)
         (headingElements doc) (doc, [])).

End Extraction.

(* ===================================================================== *)
(** * Rendering *)
(* ===================================================================== *)

(** The record the acquisition loop returns and the renderer takes. *)
Record ArticleData := {
  title : string;
  link : string;
  headers : list ParsedHeader;
  datePrefix : string
}.

(** The line feed of the template literal. *)
Definition LF : string := String (ascii_of_nat 10) EmptyString.

(** The callback of [headers.forEach] in [formatMarkdown], on the string
    being built. *)
Definition appendHeader (acc : result string) (header : ParsedHeader)
  : result string :=
  match acc with
  | Throw e => Throw e
  | Ok headersMarkdown =>
      match repeat "#" (level header) with
      | Throw e => Throw e
      | Ok markdownLevel =>
          Ok (headersMarkdown ++ markdownLevel ++ " " ++ text header
                ++ LF ++ LF)%string
      end
  end.

(** [formatMarkdown(articleData)], given what [window.moment().format(...)]
    answers. *)
Definition formatMarkdown (currentDateTime : string) (articleData : ArticleData)
  : result string :=
  let headersMarkdown :=
    if (0 <? List.length (headers articleData))%nat
    then fold_left appendHeader (headers articleData)
           (Ok (LF ++ "## Sections:" ++ LF)%string)
    else Ok (LF ++ "No significant sections found for this article."
               ++ LF ++ LF)%string in
  match headersMarkdown with
  | Throw e => Throw e
  | Ok headersMarkdown =>
      Ok ("---" ++ LF ++
          "tags: wikipedia" ++ LF ++
          "---" ++ LF ++
          LF ++
          currentDateTime ++ LF ++
          "**Related Topics**:" ++ LF ++
          "**Link**: " ++ link articleData ++ LF ++
          "# " ++ title articleData ++ " #wikipedia" ++ LF ++
          headersMarkdown ++ LF)%string
  end.

(** ** What a rendered note is made of *)

(** The lines of a text. *)
Definition lines (s : string) : list string := split (ascii_of_nat 10) s.

(** The lines of the note rendered, none when rendering throws. *)
Definition renderedLines (rendered : result string) : list string :=
  match rendered with
  | Ok markdownContent => lines markdownContent
  | Throw _ => []
  end.

(** The front matter, the time stamp, the link line and the title heading. *)
Definition frontMatter (currentDateTime : string) (articleData : ArticleData)
  : string :=
  ("---" ++ LF ++
   "tags: wikipedia" ++ LF ++
   "---" ++ LF ++
   LF ++
   currentDateTime ++ LF ++
   "**Related Topics**:" ++ LF ++
   "**Link**: " ++ link articleData ++ LF ++
   "# " ++ title articleData ++ " #wikipedia" ++ LF)%string.

(** The heading marker of a record whose level is a natural number. *)
Definition headingMarker (header : ParsedHeader) : string :=
  replicate (match level header with Num z => Z.to_nat z | NaN => 0 end) "#".

(** The heading line of a record, with the blank line after it. *)
Definition headingLine (header : ParsedHeader) : string :=
  (headingMarker header ++ " " ++ text header ++ LF ++ LF)%string.

Fixpoint headingLines (headers : list ParsedHeader) : string :=
  match headers with
  | [] => EmptyString
  | header :: rest => (headingLine header ++ headingLines rest)%string
  end.

Definition sectionsHeading : string := (LF ++ "## Sections:" ++ LF)%string.

Definition noSections : string :=
  (LF ++ "No significant sections found for this article." ++ LF ++ LF)%string.

(** The level of a record is a natural number, as that of a heading
    element is. *)
Definition naturalLevel (header : ParsedHeader) : Prop :=
  exists z, level header = Num z /\ (0 <= z)%Z.

(** A character does not occur in a string. *)
Fixpoint absent (c : ascii) (s : string) : bool :=
  match s with
  | EmptyString => true
  | String c' s' => negb (Ascii.eqb c c') && absent c s'
  end.

(* ===================================================================== *)
(** * The acquisition loop *)
(* ===================================================================== *)

(** ** The world outside *)

(** What the code reads from a JSON body: [data.items[0].title], which
    throws a [TypeError] when [items] or its first element is missing
    ([None]) and is a string otherwise, and [data?.parse?.text], which is
    undefined ([None]) when any link of the chain is missing. *)
Record JsonData := {
  items_0_title : option string;
  parse_text : option string
}.

(** A response of [fetch]; [json] is [None] when the body does not parse
    and [response.json()] rejects. *)
Record Response := {
  ok : bool;
  status : Z;
  json : option JsonData
}.

(** The network: what the call to a URL gives during the attempt made with
    the counter [retries] at the given value, [None] when [fetch] itself
    rejects.  Every iteration of the loop that does not end it increments
    the counter, so the counter identifies the attempt. *)
Definition Network := nat -> string -> option Response.

Record World := {
  network : Network;
  (** [window.moment().format(fmt)] *)
  moment_format : string -> string
}.

(** What the loop does to the world. *)
Inductive event :=
| Notice (message : string) (duration : Z)
| ConsoleError (message : string) (e : error)
| Fetch (url : string)
| SetTimeout (ms : Z).

(** The notices of a trace, and the URLs called. *)
Definition isNotice (e : event) : bool :=
  match e with
  | Notice _ _ => true
  | _ => false
  end.

Definition notices (tr : list event) : list event := filter isNotice tr.

Fixpoint networkCalls (tr : list event) : list string :=
  match tr with
  | [] => []
  | Fetch url :: tr' => url :: networkCalls tr'
  | _ :: tr' => networkCalls tr'
  end.

(** The notice that announces an attempt, and the one that reports its
    failure; attempts are numbered from 1. *)
Definition fetchingNotice (attempt : nat) : event :=
  Notice ("Fetching... (Attempt " ++ string_of_nat attempt ++ ")")%string 1500.

Definition parseFailedNotice (attempt : nat) : event :=
  Notice ("Parse failed (Attempt " ++ string_of_nat attempt
            ++ "). See console.")%string 2500.

Definition isFetchingNotice (e : event) : bool :=
  match e with
  | Notice message _ => prefix "Fetching..." message
  | _ => false
  end.

Definition isParseFailedNotice (e : event) : bool :=
  match e with
  | Notice message _ => prefix "Parse failed" message
  | _ => false
  end.

(** The notices of [n] attempts that failed with an error, the first of
    them numbered [first]. *)
Fixpoint failureNotices (first n : nat) : list event :=
  match n with
  | O => []
  | S n' =>
      fetchingNotice first :: parseFailedNotice first
        :: failureNotices (S first) n'
  end.

(** ** The state of one run *)

Record state := {
  foundSuitableArticle : bool;
  retries : nat;
  articleTitle : string;
  articleLink : string;
  articleHtml : string;
  parsedHeaders : list ParsedHeader;
  trace : list event
}.

Definition initial : state := {|
  foundSuitableArticle := false;
  retries := 0;
  articleTitle := "";
  articleLink := "";
  articleHtml := "";
  parsedHeaders := [];
  trace := []
|}.

Definition set_foundSuitableArticle (b : bool) (s : state) : state :=
  {| foundSuitableArticle := b; retries := retries s;
     articleTitle := articleTitle s; articleLink := articleLink s;
     articleHtml := articleHtml s; parsedHeaders := parsedHeaders s;
     trace := trace s |}.

Definition increment_retries (s : state) : state :=
  {| foundSuitableArticle := foundSuitableArticle s; retries := retries s + 1;
     articleTitle := articleTitle s; articleLink := articleLink s;
     articleHtml := articleHtml s; parsedHeaders := parsedHeaders s;
     trace := trace s |}.

Definition set_articleTitle (t : string) (s : state) : state :=
  {| foundSuitableArticle := foundSuitableArticle s; retries := retries s;
     articleTitle := t; articleLink := articleLink s;
     articleHtml := articleHtml s; parsedHeaders := parsedHeaders s;
     trace := trace s |}.

Definition set_articleLink (l : string) (s : state) : state :=
  {| foundSuitableArticle := foundSuitableArticle s; retries := retries s;
     articleTitle := articleTitle s; articleLink := l;
     articleHtml := articleHtml s; parsedHeaders := parsedHeaders s;
     trace := trace s |}.

Definition set_articleHtml (h : string) (s : state) : state :=
  {| foundSuitableArticle := foundSuitableArticle s; retries := retries s;
     articleTitle := articleTitle s; articleLink := articleLink s;
     articleHtml := h; parsedHeaders := parsedHeaders s;
     trace := trace s |}.

Definition set_parsedHeaders (hs : list ParsedHeader) (s : state) : state :=
  {| foundSuitableArticle := foundSuitableArticle s; retries := retries s;
     articleTitle := articleTitle s; articleLink := articleLink s;
     articleHtml := articleHtml s; parsedHeaders := hs;
     trace := trace s |}.

Definition emit (e : event) (s : state) : state :=
  {| foundSuitableArticle := foundSuitableArticle s; retries := retries s;
     articleTitle := articleTitle s; articleLink := articleLink s;
     articleHtml := articleHtml s; parsedHeaders := parsedHeaders s;
     trace := trace s ++ [e] |}.

(** The loop is on its way to a first success at attempt [k]: while it
    searches, the counter is below [k] and the notices are those of as
    many failed attempts; once it has found, the counter is [k - 1] and
    the announcement of attempt [k] follows them. *)
Definition countsFailures (k : nat) (s : state) : Prop :=
  (foundSuitableArticle s = false ->
   retries s <= k - 1
   /\ notices (trace s) = failureNotices 1 (retries s))
  /\ (foundSuitableArticle s = true ->
      retries s = k - 1
      /\ notices (trace s) = failureNotices 1 (k - 1) ++ [fetchingNotice k]).

(** ** The monad: state that survives a throw *)

Definition M (A : Type) : Type := state -> result A * state.

Definition ret {A} (a : A) : M A := fun s => (Ok a, s).

Definition bind {A B} (c : M A) (k : A -> M B) : M B :=
  fun s =>
    match c s with
    | (Ok a, s') => k a s'
    | (Throw e, s') => (Throw e, s')
    end.

Definition throw {A} (e : error) : M A := fun s => (Throw e, s).

Definition try_catch {A} (body : M A) (handler : error -> M A) : M A :=
  fun s =>
    match body s with
    | (Ok a, s') => (Ok a, s')
    | (Throw e, s') => handler e s'
    end.

Definition get : M state := fun s => (Ok s, s).

Definition modify (f : state -> state) : M unit := fun s => (Ok tt, f s).

Notation "x <- c ;; k" := (bind c (fun x => k))
  (at level 61, c at next level, right associativity).
Notation "c ;; k" := (bind c (fun _ => k))
  (at level 61, right associativity).

Section Acquisition.
Context {platform : Platform}.
Variable settings : RandomWikipediaArticleSettings.
Variable world : World.

(** ** Effects *)

Definition newNotice (message : string) (duration : Z) : M unit :=
  modify (emit (Notice message duration)).

Definition console_error (message : string) (e : error) : M unit :=
  modify (emit (ConsoleError message e)).

Definition setTimeout (ms : Z) : M unit :=
  modify (emit (SetTimeout ms)).

(** [await fetch(url)] *)
Definition fetch (url : string) : M Response :=
  fun s =>
    let s' := emit (Fetch url) s in
    match network world (retries s) url with
    | Some response => (Ok response, s')
    | None => (Throw FetchFailed, s')
    end.

(** [await response.json()] *)
Definition response_json (response : Response) : M JsonData :=
  match json response with
  | Some data => ret data
  | None => throw SyntaxError
  end.

Definition randomTitleUrl : string :=
  "https://en.wikipedia.org/api/rest_v1/page/random/title".

(** [apiUrl.toString()] after the six [searchParams.append]. *)
Definition apiUrl (articleTitle : string) : string :=
  ("https://en.wikipedia.org/w/api.php?action=parse&page="
     ++ formUrlEncode articleTitle
     ++ "&prop=text&format=json&formatversion=2&origin=*")%string.

Definition wikiLink (encodedTitle : string) : string :=
  ("https://en.wikipedia.org/wiki/" ++ encodedTitle)%string.

(** ** The body of the loop *)

(** The end of the [try] block: the article is suitable when it has at
    least [minHeaders] headings, and counts as one attempt more when not. *)
Definition acceptOrRetry : M unit :=
  s <- get ;;
  if (minHeaders settings <=? Z.of_nat (List.length (parsedHeaders s)))%Z
  then modify (set_foundSuitableArticle true)
  else modify increment_retries.

(** The [try] block. *)
Definition tryBlock : M unit :=
  randomTitleResponse <- fetch randomTitleUrl ;;
  (if negb (ok randomTitleResponse)
   then throw (Error ("REST API error: "
                        ++ string_of_Z (status randomTitleResponse))%string)
   else ret tt) ;;
  randomTitleData <- response_json randomTitleResponse ;;
  t <- match items_0_title randomTitleData with
       | Some t => ret t
       | None => throw TypeError
       end ;;
  modify (set_articleTitle t) ;;
  s <- get ;;
  encoded <- match encodeURIComponent (articleTitle s) with
             | Some e => ret e
             | None => throw URIError
             end ;;
  modify (set_articleLink (wikiLink encoded)) ;;
  s <- get ;;
  apiHtmlResponse <- fetch (apiUrl (articleTitle s)) ;;
  (if negb (ok apiHtmlResponse)
   then throw (Error ("MediaWiki API error: "
                        ++ string_of_Z (status apiHtmlResponse))%string)
   else ret tt) ;;
  apiData <- response_json apiHtmlResponse ;;
  modify (set_articleHtml match parse_text apiData with
                          | Some t => t
                          | None => ""
                          end) ;;
  s <- get ;;
  modify (set_parsedHeaders (parseWikipediaHtml settings (articleHtml s))) ;;
  acceptOrRetry.

(** The [catch] block. *)
Definition catchBlock (e : error) : M unit :=
  s <- get ;;
  console_error ("Fetch/parse error (attempt "
                   ++ string_of_nat (retries s + 1) ++ "):")%string e ;;
  newNotice ("Parse failed (Attempt "
               ++ string_of_nat (retries s + 1) ++ "). See console.")%string
            2500 ;;
  modify increment_retries ;;
  setTimeout 500.

(** What the network has for the attempt made with the counter at [i],
    read off the oracle alone: the error that stops the [try] block, or the
    title, the link and the markup that reach [parseWikipediaHtml]. *)
Definition fetched (i : nat) : result (string * string * string) :=
  match network world i randomTitleUrl with
  | None => Throw FetchFailed
  | Some r1 =>
      if negb (ok r1)
      then Throw (Error ("REST API error: " ++ string_of_Z (status r1))%string)
      else
        match json r1 with
        | None => Throw SyntaxError
        | Some d1 =>
            match items_0_title d1 with
            | None => Throw TypeError
            | Some t =>
                match encodeURIComponent t with
                | None => Throw URIError
                | Some encoded =>
                    match network world i (apiUrl t) with
                    | None => Throw FetchFailed
                    | Some r2 =>
                        if negb (ok r2)
                        then Throw (Error ("MediaWiki API error: "
                                             ++ string_of_Z (status r2))%string)
                        else
                          match json r2 with
                          | None => Throw SyntaxError
                          | Some d2 =>
                              Ok (t, wikiLink encoded,
                                  match parse_text d2 with
                                  | Some h => h
                                  | None => EmptyString
                                  end)
                          end
                    end
                end
            end
        end
  end.

(** The attempt at [i] fails with an error. *)
Definition attemptFails (i : nat) : Prop :=
  exists e, fetched i = Throw e.

(** The attempt at [i] completes and its article has enough headings. *)
Definition attemptSuitable (i : nat) : Prop :=
  exists t l h,
    fetched i = Ok (t, l, h)
    /\ (minHeaders settings
        <= Z.of_nat (List.length (parseWikipediaHtml settings h)))%Z.

(** What the loop's variables hold comes from the attempt the counter
    points at: once an article is found, the title, the link and the
    headings are those of that attempt, and no earlier attempt was a
    suitable one. *)
Definition acceptedFrom (s : state) : Prop :=
  (foundSuitableArticle s = true ->
   exists t encoded h,
     fetched (retries s) = Ok (t, wikiLink encoded, h)
     /\ encodeURIComponent t = Some encoded
     /\ articleTitle s = t
     /\ articleLink s = wikiLink encoded
     /\ parsedHeaders s = parseWikipediaHtml settings h
     /\ (minHeaders settings <= Z.of_nat (List.length (parsedHeaders s)))%Z)
  /\ (forall j, j < retries s -> ~ attemptSuitable j).

(** One turn of the [while] loop. *)
Definition iteration : M unit :=
  s <- get ;;
  newNotice ("Fetching... (Attempt "
               ++ string_of_nat (retries s + 1) ++ ")")%string 1500 ;;
  try_catch tryBlock catchBlock.

(** The loop condition. *)
Definition continue (s : state) : bool :=
  negb (foundSuitableArticle s)
  && (Z.of_nat (retries s) <? maxRetries settings)%Z.

(** How many more turns the loop can take. *)
Definition turns_left (s : state) : nat :=
  if foundSuitableArticle s then 0
  else Z.to_nat (maxRetries settings - Z.of_nat (retries s)).

Definition inspect {A} (a : A) : {b : A | a = b} := exist _ a eq_refl.

(** [while (!foundSuitableArticle && retries < maxRetries) { ... }].  A turn
    either finds an article or increments the counter, which bounds the
    number of turns. *)
Equations? while (s : state) : result unit * state by wf (turns_left s) lt :=
while s with inspect (continue s) := {
  | exist _ false _ => (Ok tt, s)
  | exist _ true running with inspect (iteration s) := {
      | exist _ (Ok _, s') turn => while s'
      | exist _ (Throw e, s') _ => (Throw e, s') } }.
Proof.
  unfold continue in running. apply andb_prop in running.
  destruct running as [notfound below].
  apply negb_true_iff in notfound. apply Z.ltb_lt in below.
  assert (step : foundSuitableArticle s' = true
                 \/ (foundSuitableArticle s' = foundSuitableArticle s
                     /\ retries s' = retries s + 1)).
  { revert turn.
    unfold iteration, tryBlock, acceptOrRetry, catchBlock, try_catch, bind,
      get, newNotice, console_error, setTimeout, fetch, response_json, modify,
      ret, throw.
    cbn.
    repeat match goal with
           | |- context [network world ?i ?u] =>
               destruct (network world i u) as [[[] ? []]|]; cbn
           | |- context [items_0_title ?d] => destruct (items_0_title d); cbn
           | |- context [encodeURIComponent ?t] =>
               destruct (encodeURIComponent t); cbn
           | |- context [Z.leb ?a ?b] => destruct (Z.leb a b); cbn
           end;
      intro E; inversion E; subst; cbn; auto. }
  unfold turns_left. rewrite notfound.
  destruct step as [found | [same next]].
  - rewrite found. lia.
  - rewrite same, notfound, next. lia.
Qed.

(** [fetchAndProcessRandomWikipediaArticle()], from the loop to the
    [return]. *)
Definition fetchAndProcess : M (option ArticleData) :=
  while ;;
  s <- get ;;
  if foundSuitableArticle s then
    let datePrefix := moment_format world "YYYY-MM-DD" in
    ret (Some {| title := articleTitle s; link := articleLink s;
                 headers := parsedHeaders s; datePrefix := datePrefix |})
  else
    newNotice ("ERROR: No suitable article after "
                 ++ string_of_Z (maxRetries settings)
                 ++ " attempts. Adjust settings.")%string 5000 ;;
    ret None.

(** A run, from the declarations of the local variables on: the value
    returned or the error thrown, and the trace left. *)
Definition fetchAndProcessRandomWikipediaArticle
  : result (option ArticleData) * list event :=
  let '(r, s) := fetchAndProcess initial in (r, trace s).

End Acquisition.

(* ===================================================================== *)
(** * A platform for ASCII text, and sample documents *)
(* ===================================================================== *)

(** On strings of ASCII characters the string methods of the platform are
    the following functions; the parser is given by the table of the
    documents it builds, which are in quirks mode. *)

Fixpoint string_rev (s acc : string) : string :=
  match s with
  | EmptyString => acc
  | String c s' => string_rev s' (String c acc)
  end.

Definition ascii_trim (s : string) : string :=
  string_rev (skip_spaces (string_rev (skip_spaces s) "")) "".

Definition lower (c : ascii) : ascii :=
  let n := code c in
  if ((65 <=? n) && (n <=? 90))%Z then ascii_of_nat (nat_of_ascii c + 32) else c.

Fixpoint ascii_toLowerCase (s : string) : string :=
  match s with
  | EmptyString => EmptyString
  | String c s' => String (lower c) (ascii_toLowerCase s')
  end.

Definition hex_digit (n : nat) : ascii :=
  if (n <? 10)%nat then ascii_of_nat (48 + n) else ascii_of_nat (55 + n).

Definition is_alphanumeric (c : ascii) : bool :=
  let n := code c in
  (((48 <=? n) && (n <=? 57)) || ((65 <=? n) && (n <=? 90))
   || ((97 <=? n) && (n <=? 122)))%Z.

Definition percent (c : ascii) (rest : string) : string :=
  String "%" (String (hex_digit (nat_of_ascii c / 16))
                (String (hex_digit (nat_of_ascii c mod 16)) rest)).

Definition uri_unreserved (c : ascii) : bool :=
  is_alphanumeric c
  || includes ["-"; "_"; "."; "!"; "~"; "*"; "'"; "("; ")"] (String c EmptyString).

Definition form_unreserved (c : ascii) : bool :=
  is_alphanumeric c || includes ["*"; "-"; "."; "_"] (String c EmptyString).

Fixpoint uri_encode (s : string) : string :=
  match s with
  | EmptyString => EmptyString
  | String c s' =>
      if uri_unreserved c then String c (uri_encode s')
      else percent c (uri_encode s')
  end.

Fixpoint form_encode (s : string) : string :=
  match s with
  | EmptyString => EmptyString
  | String c s' =>
      if Ascii.eqb c " " then String "+" (form_encode s')
      else if form_unreserved c then String c (form_encode s')
      else percent c (form_encode s')
  end.

Fixpoint lookup_document (table : list (string * node)) (s : string) : node :=
  match table with
  | [] => Element true "#document" [] []
  | (markup, doc) :: table' =>
      if String.eqb markup s then doc else lookup_document table' s
  end.

Definition ascii_platform (table : list (string * node)) : Platform := {|
  parseFromString := lookup_document table;
  matchesClass :=
    fun cls classes =>
      existsb (fun c => String.eqb (ascii_toLowerCase c) (ascii_toLowerCase cls))
        classes;
  trim := ascii_trim;
  toLowerCase := ascii_toLowerCase;
  encodeURIComponent := fun s => Some (uri_encode s);
  formUrlEncode := form_encode
|}.

(** Building documents. *)
Definition elem (tag : string) (classes : list string) (children : list node)
  : node := Element true tag classes children.

Definition document (body : list node) : node :=
  elem "#document" []
    [elem "HTML" [] [elem "HEAD" [] []; elem "BODY" [] body]].

Definition editsection (label : string) : node :=
  elem "SPAN" ["mw-editsection"] [Text label].

(** A heading with the usual single edit span. *)
Definition markup_history : string :=
  "<div class='mw-parser-output'><h2>History <span class='mw-editsection'>[edit]</span></h2><p>Text</p><h3>Early years</h3><h2>References</h2></div>".

Definition document_history : node :=
  document
    [elem "DIV" ["mw-parser-output"]
       [elem "H2" [] [Text "History "; editsection "[edit]"];
        elem "P" [] [Text "Text"];
        elem "H3" [] [Text "Early years"];
        elem "H2" [] [Text "References"]]].

(** A heading with two edit spans. *)
Definition markup_two_spans : string :=
  "<div class='mw-parser-output'><h2>History<span class='mw-editsection'>[edit]</span><span class='mw-editsection'>[edit source]</span></h2></div>".

Definition document_two_spans : node :=
  document
    [elem "DIV" ["mw-parser-output"]
       [elem "H2" []
          [Text "History"; editsection "[edit]"; editsection "[edit source]"]]].

(** A heading inside a heading: the two references of the node list share
    the inner element. *)
Definition markup_nested : string :=
  "<h2><div><h3><span class='mw-editsection'>[a]</span>Inner<span class='mw-editsection'>[b]</span></h3></div></h2>".

Definition document_nested : node :=
  document
    [elem "H2" []
       [elem "DIV" []
          [elem "H3" []
             [editsection "[a]"; Text "Inner"; editsection "[b]"]]]].

(** The candidate of the example: one heading of level 2. *)
Definition article_foo : ArticleData := {|
  title := "Foo";
  link := "https://en.wikipedia.org/wiki/Foo";
  headers := [{| level := Num 2; text := "History" |}];
  datePrefix := "2024-01-01"
|}.

(** A candidate with no heading. *)
Definition article_bare : ArticleData := {|
  title := "Bar";
  link := "https://en.wikipedia.org/wiki/Bar";
  headers := [];
  datePrefix := "2024-01-01"
|}.

(** Two headings named in the disallowed headers, and the same heading
    twice. *)
Definition markup_references : string :=
  "<h2>References</h2><h2> References </h2>".

Definition document_references : node :=
  document [elem "H2" [] [Text "References"];
            elem "H2" [] [Text " References "]].

Definition markup_twice : string := "<h3>A</h3><h3>A</h3>".

Definition document_twice : node :=
  document [elem "H3" [] [Text "A"]; elem "H3" [] [Text "A"]].

Definition sample_platform : Platform :=
  ascii_platform
    [(markup_history, document_history);
     (markup_two_spans, document_two_spans);
     (markup_nested, document_nested);
     (markup_references, document_references);
     (markup_twice, document_twice)].

(** Settings that accept an article with two headings. *)
Definition two_headers (retries : Z) : RandomWikipediaArticleSettings := {|
  minHeaders := 2;
  maxRetries := retries;
  disallowedHeaders := disallowedHeaders DEFAULT_SETTINGS;
  noteFolder := ""
|}.

Definition response_of (data : JsonData) : Response :=
  {| ok := true; status := 200; json := Some data |}.

Definition title_data (t : string) : JsonData :=
  {| items_0_title := Some t; parse_text := None |}.

Definition parse_data (h : string) : JsonData :=
  {| items_0_title := None; parse_text := Some h |}.

(** A network that answers every attempt with the same article. *)
Definition serving (t h : string) : Network :=
  fun _ url =>
    if String.eqb url randomTitleUrl then Some (response_of (title_data t))
    else Some (response_of (parse_data h)).

(** A network whose first attempt finds no connection, whose second gets a
    503 for the markup, and which serves the article from then on. *)
Definition flaky (t h : string) : Network :=
  fun i url =>
    match i with
    | 0 => None
    | 1 =>
        if String.eqb url randomTitleUrl then Some (response_of (title_data t))
        else Some {| ok := false; status := 503; json := None |}
    | _ => serving t h i url
    end.

Definition sample_world (net : Network) : World := {|
  network := net;
  moment_format :=
    fun fmt => if String.eqb fmt "YYYY-MM-DD" then "2024-01-01"
               else "2024-01-01 10:00:00"
|}.

(* ===================================================================== *)
(** * The command and the settings tab *)
(* ===================================================================== *)

(** [l1] is [l2] with some elements left out, the others in their order. *)
Inductive subsequence {A : Type} : list A -> list A -> Prop :=
| subsequence_nil : subsequence [] []
| subsequence_skip x l1 l2 : subsequence l1 l2 -> subsequence l1 (x :: l2)
| subsequence_keep x l1 l2 : subsequence l1 l2 -> subsequence (x :: l1) (x :: l2).

(** A level below zero, the one [repeat] refuses. *)
Definition negativeLevel (header : ParsedHeader) : bool :=
  match level header with
  | Num z => (z <? 0)%Z
  | NaN => false
  end.

(** ** More of a trace *)

Definition isConsoleError (e : event) : bool :=
  match e with
  | ConsoleError _ _ => true
  | _ => false
  end.

Definition isSetTimeout (e : event) : bool :=
  match e with
  | SetTimeout _ => true
  | _ => false
  end.

(** The notice that ends a run with no article. *)
Definition noArticleNotice (settings : RandomWikipediaArticleSettings) : event :=
  Notice ("ERROR: No suitable article after "
            ++ string_of_Z (maxRetries settings)
            ++ " attempts. Adjust settings.")%string 5000.

(** ** The vault and the workspace *)

(** What the host application answers to the calls of the command; each
    call is made at most once in a run of the command. *)
Record Vault := {
  (** [await this.app.vault.adapter.exists(path)] *)
  adapter_exists : string -> result bool;
  (** [await this.app.vault.createFolder(path)] *)
  vault_createFolder : string -> result unit;
  (** [await this.app.vault.create(path, data)]: the path of the new file. *)
  vault_create : string -> string -> result string;
  (** [this.app.workspace.getLeaf('tab')] *)
  workspace_getLeaf : result unit;
  (** [await leaf.openFile(file)] *)
  leaf_openFile : string -> result unit
}.

(** What the command does: what the loop does, and its own notices,
    console errors and calls to the host. *)
Inductive action :=
| Loop (e : event)
| NewNotice (message : string)
| ConsoleErr (message : string) (e : error)
| Exists (path : string)
| CreateFolder (path : string)
| Create (path data : string)
| GetLeaf
| OpenFile (path : string).

Definition isHostCall (a : action) : bool :=
  match a with
  | Exists _ | CreateFolder _ | Create _ _ | GetLeaf | OpenFile _ => true
  | _ => false
  end.

(** [noteFolder.replace(/^\/|\/$/g, '')]: the slash the string starts
    with goes, then the slash that ends what is left. *)
Definition dropLeadingSlash (s : string) : string :=
  match s with
  | String "/" s' => s'
  | _ => s
  end.

Fixpoint dropTrailingSlash (s : string) : string :=
  match s with
  | EmptyString => EmptyString
  | String c EmptyString => if Ascii.eqb c "/" then EmptyString else s
  | String c s' => String c (dropTrailingSlash s')
  end.

Definition cleanFolder (noteFolder : string) : string :=
  dropTrailingSlash (dropLeadingSlash noteFolder).

(** The monad of the command. *)
Definition H (A : Type) : Type := list action -> result A * list action.

Definition retH {A} (a : A) : H A := fun acts => (Ok a, acts).

Definition bindH {A B} (c : H A) (k : A -> H B) : H B :=
  fun acts =>
    match c acts with
    | (Ok a, acts') => k a acts'
    | (Throw e, acts') => (Throw e, acts')
    end.

Definition try_catchH {A} (body : H A) (handler : error -> H A) : H A :=
  fun acts =>
    match body acts with
    | (Ok a, acts') => (Ok a, acts')
    | (Throw e, acts') => handler e acts'
    end.

(** An action that cannot fail, and a call that gives what the host
    answers. *)
Definition act (a : action) : H unit := fun acts => (Ok tt, acts ++ [a]).

Definition call {A} (a : action) (answer : result A) : H A :=
  fun acts => (answer, acts ++ [a]).

Definition liftH {A} (r : result A) : H A := fun acts => (r, acts).

Notation "x <-- c ;;; k" := (bindH c (fun x => k))
  (at level 61, c at next level, right associativity).
Notation "c ;;; k" := (bindH c (fun _ => k))
  (at level 61, right associativity).

Section Command.
Context {platform : Platform}.
Variable settings : RandomWikipediaArticleSettings.
Variable world : World.
Variable vault : Vault.

(** [await this.fetchAndProcessRandomWikipediaArticle()] *)
Definition runLoop : H (option ArticleData) :=
  fun acts =>
    let '(r, tr) := fetchAndProcessRandomWikipediaArticle settings world in
    (r, acts ++ map Loop tr).

Definition fileNameOf (articleData : ArticleData) : string :=
  (datePrefix articleData ++ " Wikipedia Note - " ++ title articleData
     ++ ".md")%string.

(** The block under [if (this.settings.noteFolder)]: the path of the note,
    or nothing when the block returns from the command. *)
Definition inNoteFolder (fileName : string) : H (option string) :=
  let cleanedFolder := cleanFolder (noteFolder settings) in
  let fullPath := (cleanedFolder ++ "/" ++ fileName)%string in
  folderExists <-- call (Exists cleanedFolder)
                     (adapter_exists vault cleanedFolder) ;;;
  if negb folderExists then
    try_catchH
      (call (CreateFolder cleanedFolder)
         (vault_createFolder vault cleanedFolder) ;;;
       retH (Some fullPath))
      (fun folderError =>
         act (ConsoleErr "Folder creation error:" folderError) ;;;
         act (NewNotice ("Failed to create folder: " ++ cleanedFolder
                           ++ ". See console.")%string) ;;;
         retH None)
  else retH (Some fullPath).

(** The [try] block of the command. *)
Definition insertArticle : H unit :=
  articleData <-- runLoop ;;;
  match articleData with
  | Some articleData =>
      markdownContent <--
        liftH (formatMarkdown (moment_format world "YYYY-MM-DD HH:mm:ss")
                 articleData) ;;;
      let fileName := fileNameOf articleData in
      fullPath <-- (if (0 <? String.length (noteFolder settings))%nat
                    then inNoteFolder fileName
                    else retH (Some fileName)) ;;;
      match fullPath with
      | None => retH tt
      | Some fullPath =>
          newFile <-- call (Create fullPath markdownContent)
                        (vault_create vault fullPath markdownContent) ;;;
          act (NewNotice ("Created: " ++ newFile)%string) ;;;
          call GetLeaf (workspace_getLeaf vault) ;;;
          call (OpenFile newFile) (leaf_openFile vault newFile)
      end
  | None => act (NewNotice "No suitable Wikipedia article found.")
  end.

(** [handleInsertArticle()], the callback of the command and of the
    ribbon icon. *)
Definition handleInsertArticle : H unit :=
  act (NewNotice "Fetching Wikipedia article...") ;;;
  try_catchH insertArticle
    (fun error =>
       act (ConsoleErr "Wikipedia fetch/insert error:" error) ;;;
       act (NewNotice "Failed to fetch/insert Wikipedia article. See console.")).

(** Where the note of an article goes. *)
Definition targetPath (articleData : ArticleData) : string :=
  if (0 <? String.length (noteFolder settings))%nat
  then (cleanFolder (noteFolder settings) ++ "/" ++ fileNameOf articleData)%string
  else fileNameOf articleData.

End Command.

(** ** The settings tab *)

(** The [onChange] of the two number fields: the text of the field goes
    through [parseInt], and the default stands in when that gives [NaN].
    The settings are then saved as they stand; this is the record the
    handler leaves in [this.plugin.settings]. *)
Definition onChangeMinHeaders (value : string)
    (settings : RandomWikipediaArticleSettings) : RandomWikipediaArticleSettings :=
  let parsedValue := parseInt value in
  {| minHeaders := match parsedValue with
                   | NaN => minHeaders DEFAULT_SETTINGS
                   | Num z => z
                   end;
     maxRetries := maxRetries settings;
     disallowedHeaders := disallowedHeaders settings;
     noteFolder := noteFolder settings |}.

Definition onChangeMaxRetries (value : string)
    (settings : RandomWikipediaArticleSettings) : RandomWikipediaArticleSettings :=
  let parsedValue := parseInt value in
  {| minHeaders := minHeaders settings;
     maxRetries := match parsedValue with
                   | NaN => maxRetries DEFAULT_SETTINGS
                   | Num z => z
                   end;
     disallowedHeaders := disallowedHeaders settings;
     noteFolder := noteFolder settings |}.

(** [Number.isSafeInteger(z)]: the integers a [number] holds exactly, of
    which [toString()] gives the decimal digits [string_of_Z] writes. *)
Definition safeInteger (z : Z) : Prop := (Z.abs z <= 2 ^ 53 - 1)%Z.

(** A decimal digit. *)
Definition isDigit (c : ascii) : bool :=
  match digit_value 10 c with
  | Some _ => true
  | None => false
  end.

(** The prefix that makes [parseInt] read in base 16. *)
Definition hexPrefix (s : string) : bool :=
  match s with
  | String "0" (String "x" _) => true
  | String "0" (String "X" _) => true
  | _ => false
  end.

(** Text that ends a decimal number written before it: nothing, or what
    starts with a character other than a digit and [x]. *)
Definition stopsNumber (rest : string) : bool :=
  match rest with
  | EmptyString => true
  | String c _ =>
      negb (isDigit c) && negb (Ascii.eqb c "x") && negb (Ascii.eqb c "X")
  end.

(** Text in which [parseInt] finds no number: after the white space comes
    nothing, or a character of the ASCII range that is neither a digit nor
    a sign. *)
Definition noNumber (value : string) : bool :=
  match skip_spaces value with
  | EmptyString => true
  | String c _ =>
      (code c <? 128)%Z
      && negb (isDigit c) && negb (Ascii.eqb c "-") && negb (Ascii.eqb c "+")
  end.

(** ** The books of a run *)

(** The two addresses the loop calls. *)
Definition endpoint {platform : Platform} (url : string) : Prop :=
  url = randomTitleUrl \/ exists t, url = apiUrl t.

(** What the trace of the loop and its counter say of each other, at any
    turn: as many attempts announced as the counter tells, with one more
    once an article is found; the counter within [maxRetries]; two network
    calls at most for an attempt, to the two addresses; an error notice, a
    console error and a pause of 500 ms for each error, and no more errors
    than the counter tells. *)
Definition accounted {platform : Platform}
    (settings : RandomWikipediaArticleSettings) (s : state) : Prop :=
  let attempts := List.length (filter isFetchingNotice (trace s)) in
  let errors := List.length (filter isParseFailedNotice (trace s)) in
  attempts = retries s + (if foundSuitableArticle s then 1 else 0)
  /\ (foundSuitableArticle s = true ->
      (Z.of_nat (retries s) < maxRetries settings)%Z)
  /\ (Z.of_nat (retries s) <= Z.max 0 (maxRetries settings))%Z
  /\ List.length (networkCalls (trace s)) <= 2 * attempts
  /\ Forall endpoint (networkCalls (trace s))
  /\ errors <= retries s
  /\ List.length (filter isConsoleError (trace s)) = errors
  /\ filter isSetTimeout (trace s) = List.repeat (SetTimeout 500) errors.

(** ** More samples *)

(** Settings whose disallowed headers are blanks and commas. *)
Definition blank_headers : RandomWikipediaArticleSettings := {|
  minHeaders := 2;
  maxRetries := 5;
  disallowedHeaders := " , ,";
  noteFolder := ""
|}.

(** A network with no connection. *)
Definition offline : Network := fun _ _ => None.

(** Settings that ask for no heading at all. *)
Definition no_minimum : RandomWikipediaArticleSettings := {|
  minHeaders := 0;
  maxRetries := 1;
  disallowedHeaders := disallowedHeaders DEFAULT_SETTINGS;
  noteFolder := ""
|}.

(** ** What the command leaves behind *)

Definition isCreate (a : action) : bool :=
  match a with
  | Create _ _ => true
  | _ => false
  end.

Definition isNewNotice (a : action) : bool :=
  match a with
  | NewNotice _ => true
  | _ => false
  end.

(** The actions of a run of the command, started from nothing. *)
Definition actions {platform : Platform}
    (settings : RandomWikipediaArticleSettings) (world : World) (vault : Vault)
  : list action :=
  snd (handleInsertArticle settings world vault []).

(** A vault with nothing in it, which grants every call. *)
Definition empty_vault : Vault := {|
  adapter_exists := fun _ => Ok false;
  vault_createFolder := fun _ => Ok tt;
  vault_create := fun path _ => Ok path;
  workspace_getLeaf := Ok tt;
  leaf_openFile := fun _ => Ok tt
|}.

(** A vault in which no folder can be created. *)
Definition read_only_vault : Vault := {|
  adapter_exists := fun _ => Ok false;
  vault_createFolder := fun _ => Throw (Error "EACCES");
  vault_create := fun path _ => Ok path;
  workspace_getLeaf := Ok tt;
  leaf_openFile := fun _ => Ok tt
|}.

(** Settings that put the notes in a folder. *)
Definition in_folder : RandomWikipediaArticleSettings := {|
  minHeaders := 2;
  maxRetries := 5;
  disallowedHeaders := disallowedHeaders DEFAULT_SETTINGS;
  noteFolder := "/Wikipedia/"
|}.

(** The record of the sample article "Foo" with the markup of
    [markup_history]. *)
Definition article_history : ArticleData := {|
  title := "Foo";
  link := "https://en.wikipedia.org/wiki/Foo";
  headers := [{| level := Num 2; text := "History" |};
              {| level := Num 3; text := "Early years" |}];
  datePrefix := "2024-01-01"
|}.

(** The note of [article_history]. *)
Definition note_history : string :=
  (frontMatter "2024-01-01 10:00:00" article_history
     ++ sectionsHeading ++ headingLines (headers article_history) ++ LF)%string.

(* ===================================================================== *)
(** * Facts about the DOM *)
(* ===================================================================== *)

Lemma textContent_element a t c ch :
  textContent (Element a t c ch) = textChildren ch.
Proof. reflexivity. Qed.

Lemma querySelectorAll_element sel a t c ch :
  querySelectorAll sel (Element a t c ch) = queryChildren sel ch.
Proof. reflexivity. Qed.

Lemma textOutside_element sel a t c ch :
  textOutside sel (Element a t c ch) = textOutsideChildren sel ch.
Proof. reflexivity. Qed.

Lemma shallow_hasClass {platform : Platform} cls : shallow (hasClass cls).
Proof. repeat split. Qed.

(** ** Dereferencing *)

Lemma subtree_app p q n :
  subtree (p ++ q) n =
  match subtree p n with
  | Some m => subtree q m
  | None => None
  end.
Proof.
  revert n. induction p as [|i p IH]; intro n; simpl.
  - reflexivity.
  - destruct n as [d|d|a t c ch]; try reflexivity.
    destruct (nth_error ch i); [apply IH | reflexivity].
Qed.

(** ** What the selectors return *)

(** Every path of [queryChildren] enters one of the children and ends on a
    node that matches. *)
Lemma queryChildren_sound sel l :
  Forall (fun c => forall p, In p (querySelectorAll sel c) ->
                   exists m, subtree p c = Some m /\ sel m = true) l ->
  forall p, In p (queryChildren sel l) ->
  exists i q c m,
    p = i :: q /\ nth_error l i = Some c /\ subtree q c = Some m /\ sel m = true.
Proof.
  induction 1 as [|c l Hc Hl IH]; intros p Hp; simpl in Hp.
  - contradiction.
  - apply in_app_or in Hp. destruct Hp as [Hp | Hp].
    + destruct (isAttached c); [|contradiction].
      apply in_app_or in Hp. destruct Hp as [Hp | Hp].
      * destruct (sel c) eqn:Hsel; [|contradiction].
        destruct Hp as [<- | []].
        exists 0, [], c, c. auto.
      * apply in_map_iff in Hp. destruct Hp as (q & <- & Hq).
        destruct (Hc q Hq) as (m & Hm & Hsel).
        exists 0, q, c, m. auto.
    + apply in_map_iff in Hp. destruct Hp as (p' & <- & Hp').
      destruct (IH p' Hp') as (i & q & c' & m & -> & Hn & Hm & Hsel).
      exists (S i), q, c', m. auto.
Qed.

Lemma querySelectorAll_sound sel n :
  forall p, In p (querySelectorAll sel n) ->
  exists m, subtree p n = Some m /\ sel m = true.
Proof.
  induction n as [d|d|a t c ch IH] using node_ind; intros p Hp;
    try contradiction.
  rewrite querySelectorAll_element in Hp.
  destruct (@queryChildren_sound sel ch IH p Hp) as (i & q & x & m & -> & Hn & Hm & Hs).
  exists m. simpl. rewrite Hn. auto.
Qed.

Lemma querySelectorAll_nonempty_path sel n q :
  In q (querySelectorAll sel n) -> q <> [].
Proof.
  destruct n as [d|d|a t c ch]; try contradiction.
  rewrite querySelectorAll_element. intro Hq.
  assert (Hs : Forall (fun c => forall p, In p (querySelectorAll sel c) ->
                         exists m, subtree p c = Some m /\ sel m = true) ch)
    by (apply Forall_forall; intros; eapply querySelectorAll_sound; eauto).
  destruct (@queryChildren_sound sel ch Hs q Hq) as (i & q' & _ & _ & -> & _).
  discriminate.
Qed.

Lemma querySelector_sound sel n p :
  querySelector sel n = Some p ->
  exists m, subtree p n = Some m /\ sel m = true.
Proof.
  unfold querySelector. intro H.
  apply querySelectorAll_sound.
  destruct (querySelectorAll sel n); [discriminate|].
  injection H as ->. now left.
Qed.

(** ** Removing an element *)

Lemma nth_error_update_nth f l : forall i j,
  nth_error (update_nth j f l) i =
  if Nat.eqb i j then option_map f (nth_error l i) else nth_error l i.
Proof.
  induction l as [|x l IH]; intros i j; simpl.
  - destruct i, j; simpl; try reflexivity. now destruct (Nat.eqb i j).
  - destruct j, i; simpl; try reflexivity. apply IH.
Qed.

Lemma tagNameOf_remove q x : tagNameOf (remove q x) = tagNameOf x.
Proof. destruct q, x; reflexivity. Qed.

Lemma isAttached_remove_cons j q x :
  isAttached (remove (j :: q) x) = isAttached x.
Proof. destruct x; reflexivity. Qed.

Lemma shallow_remove sel q x : shallow sel -> sel (remove q x) = sel x.
Proof.
  intros (_ & _ & Hsel). destruct q, x; simpl; auto.
Qed.

(** A reference to an ancestor of the removed element sees the removal. *)
Lemma subtree_remove_under q : forall p n m,
  subtree p n = Some m ->
  subtree p (remove (p ++ q) n) = Some (remove q m).
Proof.
  induction p as [|i p IH]; intros n m H; simpl in *.
  - injection H as ->. reflexivity.
  - destruct n as [d|d|a t c ch]; try discriminate.
    destruct (nth_error ch i) as [x|] eqn:Hx; [|discriminate].
    simpl. rewrite nth_error_update_nth, Nat.eqb_refl, Hx. simpl.
    now apply IH.
Qed.

(** Any reference still resolves after a removal, to the same node or to
    that node with the removal done inside it. *)
Lemma subtree_remove : forall p r n m,
  subtree p n = Some m ->
  exists m', subtree p (remove r n) = Some m'
             /\ (m' = m \/ exists r', r = p ++ r' /\ m' = remove r' m).
Proof.
  induction p as [|i p IH]; intros r n m H; simpl in H.
  - injection H as ->. exists (remove r m). split; [reflexivity|].
    right. exists r. auto.
  - destruct n as [d|d|a t c ch]; try discriminate.
    destruct (nth_error ch i) as [x|] eqn:Hx; [|discriminate].
    destruct r as [|j r].
    + exists m. simpl. rewrite Hx. auto.
    + simpl. rewrite nth_error_update_nth.
      destruct (Nat.eqb i j) eqn:Hij.
      * apply Nat.eqb_eq in Hij. subst j. rewrite Hx. simpl.
        destruct (IH r x m H) as (m' & Hm' & Hcase).
        exists m'. split; [assumption|].
        destruct Hcase as [-> | (r' & -> & ->)]; [now left|].
        right. exists r'. auto.
      * rewrite Hx. exists m. auto.
Qed.

(** A removal leaves the text outside the matching elements as it was when
    the element removed is a matching one. *)
Lemma textOutside_remove sel (Hsel : shallow sel) : forall r n e,
  subtree r n = Some e -> sel e = true ->
  textOutside sel (remove r n) = textOutside sel n.
Proof.
  induction r as [|i r IH]; intros n e Hr He.
  - destruct n; reflexivity.
  - destruct n as [d|d|a t c ch]; try discriminate.
    simpl in Hr. simpl remove. rewrite !textOutside_element.
    revert i Hr. induction ch as [|x l IHl]; intros i Hr.
    + destruct i; discriminate.
    + destruct i as [|i]; simpl in Hr |- *.
      * f_equal. rewrite (shallow_remove sel r x Hsel).
        destruct r as [|j r].
        -- simpl in Hr. injection Hr as ->. rewrite He.
           now rewrite !andb_false_r.
        -- rewrite isAttached_remove_cons.
           now rewrite (IH x e Hr He).
      * f_equal. now apply IHl.
Qed.

(** A removal never adds a match. *)
Lemma querySelectorAll_remove sel (Hsel : shallow sel) : forall r n,
  List.length (querySelectorAll sel (remove r n))
  <= List.length (querySelectorAll sel n).
Proof.
  induction r as [|i r IH]; intro n.
  - destruct n; simpl; lia.
  - destruct n as [d|d|a t c ch]; simpl remove; try lia.
    rewrite !querySelectorAll_element.
    revert i. induction ch as [|x l IHl]; intro i.
    + destruct i; simpl; lia.
    + destruct i as [|i]; simpl; rewrite !length_app, !length_map.
      * apply Nat.add_le_mono_r.
        rewrite (shallow_remove sel r x Hsel).
        destruct r as [|j r].
        -- destruct x as [d|d|a' t' c' ch']; simpl; lia.
        -- rewrite isAttached_remove_cons.
           destruct (isAttached x); [|simpl; lia].
           rewrite !length_app, !length_map.
           apply Nat.add_le_mono_l, IH.
      * apply Nat.add_le_mono_l, IHl.
Qed.

(** ** The text of an element and its matching descendants *)

Lemma map_bump_nil (l : list path) : map bump l = [] -> l = [].
Proof. destruct l; [reflexivity | discriminate]. Qed.

Lemma textChildren_no_match sel l :
  Forall (fun c => querySelectorAll sel c = [] ->
                   textContent c = textOutside sel c) l ->
  queryChildren sel l = [] ->
  textChildren l = textOutsideChildren sel l.
Proof.
  induction 1 as [|c l Hc Hl IH]; intro Hq; simpl in *.
  - reflexivity.
  - apply app_eq_nil in Hq. destruct Hq as [Hhead Htail].
    apply map_bump_nil in Htail. rewrite (IH Htail). f_equal.
    destruct (isAttached c); [|reflexivity].
    apply app_eq_nil in Hhead. destruct Hhead as [Hsel Hin].
    destruct (sel c); [discriminate|]. simpl.
    apply Hc. now destruct (querySelectorAll sel c).
Qed.

(** With no matching descendant, the text is all outside. *)
Lemma textContent_no_match sel n :
  querySelectorAll sel n = [] -> textContent n = textOutside sel n.
Proof.
  induction n as [d|d|a t c ch IH] using node_ind; intro Hq;
    try reflexivity.
  rewrite textContent_element, textOutside_element.
  now apply textChildren_no_match.
Qed.

Lemma textChildren_single sel (Hsel : shallow sel) l :
  Forall (fun c => forall q, querySelectorAll sel c = [q] ->
                   textContent (remove q c) = textOutside sel c) l ->
  forall q, queryChildren sel l = [q] ->
  exists i q',
    q = i :: q'
    /\ textChildren (update_nth i (remove q') l) = textOutsideChildren sel l.
Proof.
  assert (Hrest : forall l', queryChildren sel l' = [] ->
                             textChildren l' = textOutsideChildren sel l').
  { intros l' Hl'. apply textChildren_no_match; [|assumption].
    apply Forall_forall. intros. now apply textContent_no_match. }
  induction 1 as [|c l Hc Hl IH]; intros q Hq; simpl in Hq.
  - discriminate.
  - apply app_eq_unit in Hq. destruct Hq as [[Hhead Htail] | [Hhead Htail]].
    + (* the match is among the later children *)
      destruct (queryChildren sel l) as [|q0 [|]] eqn:Hl0; try discriminate.
      injection Htail as <-.
      destruct (IH q0 eq_refl) as (i & q' & -> & Htext).
      exists (S i), q'. split; [reflexivity|]. simpl. rewrite Htext. f_equal.
      destruct (isAttached c); [|reflexivity].
      apply app_eq_nil in Hhead. destruct Hhead as [Hselc Hin].
      destruct (sel c); [discriminate|]. simpl.
      apply textContent_no_match. now destruct (querySelectorAll sel c).
    + (* the match is the first child or inside it *)
      apply map_bump_nil in Htail.
      destruct (isAttached c) eqn:Hatt; [|discriminate].
      destruct (sel c) eqn:Hselc.
      * injection Hhead as <- Hin.
        exists 0, []. split; [reflexivity|]. simpl.
        rewrite (Hrest l Htail). f_equal.
        destruct c as [d|d|a t cl ch]; simpl.
        -- destruct Hsel as (Ht & _). now rewrite Ht in Hselc.
        -- destruct Hsel as (_ & Hcm & _). now rewrite Hcm in Hselc.
        -- rewrite Hselc. now rewrite andb_false_r.
      * simpl in Hhead.
        destruct (querySelectorAll sel c) as [|q' [|]] eqn:Hqc;
          try discriminate.
        injection Hhead as <-.
        exists 0, q'. split; [reflexivity|]. simpl.
        rewrite (Hrest l Htail). f_equal.
        assert (Hne : q' <> []).
        { apply (@querySelectorAll_nonempty_path sel c). rewrite Hqc. now left. }
        destruct q' as [|j q']; [contradiction|].
        rewrite isAttached_remove_cons, Hatt, Hselc. cbn [andb negb].
        now apply Hc.
Qed.

(** With one matching descendant, the text that is left once it is
    removed is the text outside. *)
Lemma textContent_single sel (Hsel : shallow sel) n :
  forall q, querySelectorAll sel n = [q] ->
  textContent (remove q n) = textOutside sel n.
Proof.
  induction n as [d|d|a t c ch IH] using node_ind; intros q Hq;
    try discriminate.
  rewrite querySelectorAll_element in Hq.
  destruct (textChildren_single sel Hsel ch IH q Hq) as (i & q' & -> & Htext).
  simpl remove. now rewrite textContent_element, textOutside_element.
Qed.

(** ** Documents under removal *)

Lemma tracks_refl sel doc : tracks sel doc doc.
Proof.
  intros p m Hp. exists m. repeat split; auto.
Qed.

Lemma tracks_remove sel (Hsel : shallow sel) doc0 doc r e :
  tracks sel doc0 doc ->
  subtree r doc = Some e -> sel e = true ->
  tracks sel doc0 (remove r doc).
Proof.
  intros Htr Hr He p m0 Hp.
  destruct (Htr p m0 Hp) as (m & Hm & Htag & Htext & Hcount).
  destruct (subtree_remove p r doc m Hm) as (m' & Hm' & Hcase).
  exists m'. split; [assumption|].
  destruct Hcase as [-> | (r' & -> & ->)].
  - repeat split; assumption.
  - rewrite subtree_app, Hm in Hr.
    repeat split.
    + now rewrite tagNameOf_remove.
    + now rewrite (textOutside_remove sel Hsel r' m e Hr He).
    + pose proof (querySelectorAll_remove sel Hsel r' m). lia.
Qed.

(* ===================================================================== *)
(** * Facts about the heading extraction *)
(* ===================================================================== *)

Section ExtractionFacts.
Context {platform : Platform}.
Variable settings : RandomWikipediaArticleSettings.

Lemma shallow_mw_editsection : shallow mw_editsection.
Proof. apply shallow_hasClass. Qed.

(** The references of the node list resolve, to H2, H3 or H4 elements. *)
Lemma heading_resolves doc :
  Forall (fun el => exists m, subtree el doc = Some m /\ h2_h3_h4 m = true)
    (headingElements doc).
Proof.
  apply Forall_forall. intros el Hel. unfold headingElements in Hel.
  destruct (querySelector mw_parser_output doc) as [div|] eqn:Hdiv.
  - destruct (subtree div doc) as [d|] eqn:Hd; [|contradiction].
    apply in_map_iff in Hel. destruct Hel as (q & <- & Hq).
    rewrite subtree_app, Hd. now apply querySelectorAll_sound.
  - now apply querySelectorAll_sound.
Qed.

Lemma heading_level m :
  h2_h3_h4 m = true ->
  let lvl := parseInt (substring_from 1 (tagNameOf m)) in
  lvl = Num 2 \/ lvl = Num 3 \/ lvl = Num 4.
Proof.
  destruct m as [d|d|a t c ch]; try discriminate.
  unfold h2_h3_h4, hasTag, includes. simpl.
  destruct (String.eqb_spec t "H2") as [->|_]; [now left|].
  destruct (String.eqb_spec t "H3") as [->|_]; [now right; left|].
  destruct (String.eqb_spec t "H4") as [->|_]; [now right; right|].
  discriminate.
Qed.

(** One call of the callback on a reference that resolves. *)
Lemma readHeading_resolved doc el m :
  subtree el doc = Some m ->
  exists txt,
    snd (readHeading doc el)
    = Some (parseInt (substring_from 1 (tagNameOf m)), txt)
    /\ (List.length (querySelectorAll mw_editsection m) <= 1 ->
        txt = trim (textOutside mw_editsection m)).
Proof.
  intro Hm. unfold readHeading, querySelector. rewrite Hm.
  destruct (querySelectorAll mw_editsection m) as [|q rest] eqn:Hq; simpl.
  - eexists. split; [reflexivity|]. intros _.
    now rewrite (textContent_no_match mw_editsection m Hq).
  - rewrite (subtree_remove_under q el doc m Hm).
    eexists. split; [reflexivity|]. intro Hone.
    destruct rest; [|simpl in Hone; lia].
    now rewrite (textContent_single mw_editsection shallow_mw_editsection m q Hq).
Qed.

Lemma readHeading_tracks doc0 doc el :
  tracks mw_editsection doc0 doc ->
  tracks mw_editsection doc0 (fst (readHeading doc el)).
Proof.
  intro Htr. unfold readHeading.
  destruct (subtree el doc) as [m|] eqn:Hm; [|assumption].
  destruct (querySelector mw_editsection m) as [q|] eqn:Hq; [|assumption].
  simpl. destruct (querySelector_sound mw_editsection m q Hq) as (e & He & Hcls).
  apply (tracks_remove mw_editsection shallow_mw_editsection doc0 doc _ e);
    try assumption.
  now rewrite subtree_app, Hm.
Qed.

(** The callback splits in two: what is read, then what is kept. *)
Lemma forEach_split D : forall els doc hs,
  snd (fold_left (forEachHeading D) els (doc, hs))
  = fold_left (pushHeader D) (readHeadings doc els) hs.
Proof.
  induction els as [|el els IH]; intros doc hs; simpl.
  - reflexivity.
  - destruct (readHeading doc el) as [doc' [h|]]; simpl; apply IH.
Qed.

(** What is read from the [k]-th heading when it had at most one edit
    span in the document as parsed. *)
Lemma readHeadings_nth doc0 : forall els doc,
  tracks mw_editsection doc0 doc ->
  Forall (fun el => exists m, subtree el doc0 = Some m /\ h2_h3_h4 m = true) els ->
  forall k el m0,
    nth_error els k = Some el ->
    subtree el doc0 = Some m0 ->
    List.length (querySelectorAll mw_editsection m0) <= 1 ->
    nth_error (readHeadings doc els) k = Some (headingOutsideEdit m0).
Proof.
  induction els as [|el0 els IH]; intros doc Htr Hres k el m0 Hk Hm0 Hone.
  - destruct k; discriminate.
  - inversion Hres as [|? ? (m1 & Hm1 & _) Hres']; subst.
    destruct (Htr el0 m1 Hm1) as (m & Hm & Htag & Htext & Hcount).
    destruct (readHeading_resolved doc el0 m Hm) as (txt & Hread & Htxt).
    pose proof (readHeading_tracks doc0 doc el0 Htr) as Htr'.
    simpl. destruct (readHeading doc el0) as [doc' h]. simpl in *. subst h.
    destruct k as [|k]; simpl in *.
    + injection Hk as ->. rewrite Hm1 in Hm0. injection Hm0 as ->.
      unfold headingOutsideEdit. rewrite Htag, Htxt, Htext by lia.
      reflexivity.
    + now apply (IH doc' Htr' Hres' k el m0).
Qed.

(** Every level read is 2, 3 or 4. *)
Lemma readHeadings_levels doc0 : forall els doc,
  tracks mw_editsection doc0 doc ->
  Forall (fun el => exists m, subtree el doc0 = Some m /\ h2_h3_h4 m = true) els ->
  Forall (fun h => fst h = Num 2 \/ fst h = Num 3 \/ fst h = Num 4)
    (readHeadings doc els).
Proof.
  induction els as [|el0 els IH]; intros doc Htr Hres; simpl.
  - constructor.
  - inversion Hres as [|? ? (m1 & Hm1 & Htagged) Hres']; subst.
    destruct (Htr el0 m1 Hm1) as (m & Hm & Htag & _).
    destruct (readHeading_resolved doc el0 m Hm) as (txt & Hread & _).
    pose proof (readHeading_tracks doc0 doc el0 Htr) as Htr'.
    destruct (readHeading doc el0) as [doc' h]. simpl in *. subst h.
    constructor; [|now apply IH].
    simpl. rewrite Htag. now apply heading_level.
Qed.

End ExtractionFacts.

Section KeepingHeaders.
Context {platform : Platform}.
Variable D : list string.

Lemma includes_false l x : includes l x = false -> ~ In x l.
Proof.
  unfold includes. intros Hf Hin.
  assert (Ht : existsb (String.eqb x) l = true).
  { apply existsb_exists. exists x. split; [assumption | apply String.eqb_refl]. }
  congruence.
Qed.

(** A record that [some] did not find is not in the array, as long as its
    level is a number. *)
Lemma some_false_not_in hs lvl txt :
  lvl <> NaN ->
  existsb (fun h => String.eqb (text h) txt && strict_eq (level h) lvl) hs = false ->
  ~ In {| level := lvl; text := txt |} hs.
Proof.
  intros Hnum Hf Hin.
  assert (Ht : existsb (fun h => String.eqb (text h) txt
                                 && strict_eq (level h) lvl) hs = true).
  { apply existsb_exists. exists {| level := lvl; text := txt |}.
    split; [assumption|]. simpl. rewrite String.eqb_refl.
    destruct lvl as [|z]; [contradiction|]. simpl. apply Z.eqb_refl. }
  congruence.
Qed.

Lemma pushHeader_kept hs h :
  fst h <> NaN -> kept D hs -> kept D (pushHeader D hs h).
Proof.
  destruct h as [lvl txt]. simpl. intros Hnum [Hnd Hex]. unfold pushHeader.
  destruct (includes D (toLowerCase txt)) eqn:Hinc; [now split|].
  destruct (existsb _ hs) eqn:Hsome; simpl; [now split|].
  split.
  - apply NoDup_app; [assumption | repeat constructor; intros [] | ].
    intros x Hx [<- | []]. revert Hx. now apply some_false_not_in.
  - apply Forall_app. split; [assumption|].
    constructor; [|constructor]. simpl. now apply includes_false.
Qed.

Lemma fold_pushHeader_kept : forall cands hs,
  Forall (fun h => fst h <> NaN) cands ->
  kept D hs -> kept D (fold_left (pushHeader D) cands hs).
Proof.
  induction cands as [|h cands IH]; intros hs Hnum Hk; simpl.
  - assumption.
  - inversion Hnum; subst. apply IH; [assumption|]. now apply pushHeader_kept.
Qed.

(** Every record kept was read from some heading. *)
Lemma fold_pushHeader_from : forall cands hs h,
  In h (fold_left (pushHeader D) cands hs) ->
  In h hs \/ In (level h, text h) cands.
Proof.
  induction cands as [|[lvl txt] cands IH]; intros hs h Hin; simpl in *.
  - now left.
  - destruct (IH _ _ Hin) as [Hhs | Hc]; [|now right; right].
    unfold pushHeader in Hhs.
    destruct (includes D (toLowerCase txt)); [now left|].
    destruct (existsb _ hs); simpl in Hhs; [now left|].
    apply in_app_or in Hhs. destruct Hhs as [Hhs | [<- | []]]; [now left|].
    right. now left.
Qed.

End KeepingHeaders.

(* ===================================================================== *)
(** * The extracted headings *)
(* ===================================================================== *)

Lemma parseWikipediaHtml_split {platform : Platform} settings html :
  parseWikipediaHtml settings html
  = fold_left (pushHeader (getProcessedDisallowedHeaders settings))
      (readHeadings (parseFromString html)
         (headingElements (parseFromString html))) [].
Proof. unfold parseWikipediaHtml. apply forEach_split. Qed.

Lemma parseWikipediaHtml_kept {platform : Platform} settings html :
  kept (getProcessedDisallowedHeaders settings)
    (parseWikipediaHtml settings html).
Proof.
  rewrite parseWikipediaHtml_split.
  apply fold_pushHeader_kept.
  - eapply Forall_impl;
      [| apply (readHeadings_levels (parseFromString html));
         [apply tracks_refl | apply heading_resolves]].
    intros h [-> | [-> | ->]]; discriminate.
  - split; constructor.
Qed.

(** C1: whatever the markup and the settings, the array returned by
    [parseWikipediaHtml] has no two records with the same (level, text)
    pair, and no record whose text in lower case is one of the processed
    disallowed headers. *)
Theorem parseWikipediaHtml_no_duplicate_no_disallowed
    (platform : Platform) (settings : RandomWikipediaArticleSettings)
    (htmlContent : string) :
  NoDup (map (fun h => (level h, text h))
           (parseWikipediaHtml settings htmlContent))
  /\ forall h, In h (parseWikipediaHtml settings htmlContent) ->
               ~ In (toLowerCase (text h))
                    (getProcessedDisallowedHeaders settings).
Proof.
  destruct (parseWikipediaHtml_kept settings htmlContent) as [Hnd Hex].
  split.
  - apply Injective_map_NoDup; [|assumption].
    intros [l1 t1] [l2 t2] Heq. simpl in Heq. congruence.
  - now apply Forall_forall.
Qed.

(** C9, as the code has it: a heading element with at most one
    [.mw-editsection] element inside it is read as its level and the
    trimmed text found outside that element; the records returned are the
    headings so read, passed through the exclusion and duplicate rules,
    so that every record is one of them. *)
Theorem heading_text_outside_edit_span
    (platform : Platform) (settings : RandomWikipediaArticleSettings)
    (htmlContent : string) (k : nat) (headingEl : path) (el : node) :
  let doc := parseFromString htmlContent in
  nth_error (headingElements doc) k = Some headingEl ->
  subtree headingEl doc = Some el ->
  List.length (querySelectorAll mw_editsection el) <= 1 ->
  nth_error (readHeadings doc (headingElements doc)) k
  = Some (headingOutsideEdit el)
  /\ parseWikipediaHtml settings htmlContent
     = fold_left (pushHeader (getProcessedDisallowedHeaders settings))
         (readHeadings doc (headingElements doc)) []
  /\ forall h, In h (parseWikipediaHtml settings htmlContent) ->
       In (level h, text h) (readHeadings doc (headingElements doc)).
Proof.
  intros doc Hk Hel Hone. split; [|split].
  - apply (readHeadings_nth doc (headingElements doc) doc
             (tracks_refl _ doc) (heading_resolves doc) k headingEl el);
      assumption.
  - apply parseWikipediaHtml_split.
  - intros h Hh. rewrite parseWikipediaHtml_split in Hh.
    destruct (fold_pushHeader_from _ _ _ _ Hh) as [[] | Hread].
    exact Hread.
Qed.

Lemma heading_text_outside_edit_span_witness :
  let el := elem "H2" [] [Text "History "; editsection "[edit]"] in
  let read := @readHeadings sample_platform document_history
                (@headingElements sample_platform document_history) in
  nth_error read 0 = Some (@headingOutsideEdit sample_platform el)
  /\ @parseWikipediaHtml sample_platform DEFAULT_SETTINGS markup_history
     = fold_left
         (@pushHeader sample_platform
            (@getProcessedDisallowedHeaders sample_platform DEFAULT_SETTINGS))
         read []
  /\ forall h,
       In h (@parseWikipediaHtml sample_platform DEFAULT_SETTINGS
               markup_history) ->
       In (level h, text h) read.
Proof.
  apply (heading_text_outside_edit_span sample_platform DEFAULT_SETTINGS
           markup_history 0 [0; 1; 0; 0]).
  - reflexivity.
  - reflexivity.
  - simpl. lia.
Defined.

(** The examples of the specification, and a heading inside a heading:
    the outer one takes the first edit span out of the inner one, which
    then loses its second. *)
Example headings_of_history :
  @parseWikipediaHtml sample_platform DEFAULT_SETTINGS markup_history
  = [{| level := Num 2; text := "History" |};
     {| level := Num 3; text := "Early years" |}].
Proof. reflexivity. Qed.

Example headings_of_references :
  @parseWikipediaHtml sample_platform DEFAULT_SETTINGS markup_references = [].
Proof. reflexivity. Qed.

Example headings_of_twice :
  @parseWikipediaHtml sample_platform DEFAULT_SETTINGS markup_twice
  = [{| level := Num 3; text := "A" |}].
Proof. reflexivity. Qed.

Example headings_of_nested :
  @parseWikipediaHtml sample_platform DEFAULT_SETTINGS markup_nested
  = [{| level := Num 2; text := "Inner[b]" |};
     {| level := Num 3; text := "Inner" |}].
Proof. reflexivity. Qed.

(** C9, as stated, fails on a heading with two edit spans: only the first
    one is removed, and the text of the second is in the record. *)
Lemma second_edit_span_leaks :
  let doc := @parseFromString sample_platform markup_two_spans in
  let el := elem "H2" []
              [Text "History"; editsection "[edit]";
               editsection "[edit source]"] in
  nth_error (@headingElements sample_platform doc) 0 = Some [0; 1; 0; 0]
  /\ subtree [0; 1; 0; 0] doc = Some el
  /\ @headingOutsideEdit sample_platform el = (Num 2, "History")
  /\ nth_error (@readHeadings sample_platform doc
                  (@headingElements sample_platform doc)) 0
     = Some (Num 2, "History[edit source]")
  /\ @parseWikipediaHtml sample_platform DEFAULT_SETTINGS markup_two_spans
     = [{| level := Num 2; text := "History[edit source]" |}].
Proof.
  repeat split; reflexivity.
Qed.

(* ===================================================================== *)
(** * The rendered note *)
(* ===================================================================== *)

Lemma append_assoc (a b c : string) : ((a ++ b) ++ c = a ++ (b ++ c))%string.
Proof. induction a as [|x a IH]; simpl; [reflexivity | now rewrite IH]. Qed.

Lemma length_replicate_one n c :
  String.length (replicate n (String c EmptyString)) = n.
Proof. induction n as [|n IH]; simpl; [reflexivity | now rewrite IH]. Qed.

(** The marker of a record is as long as its level. *)
Lemma headingMarker_length header :
  naturalLevel header ->
  Num (Z.of_nat (String.length (headingMarker header))) = level header.
Proof.
  intros (z & Hz & Hpos). unfold headingMarker. rewrite Hz.
  rewrite length_replicate_one. f_equal. lia.
Qed.

Lemma appendHeader_natural acc header :
  naturalLevel header ->
  appendHeader (Ok acc) header = Ok (acc ++ headingLine header)%string.
Proof.
  intros (z & Hz & Hpos). unfold appendHeader, headingLine, headingMarker, repeat.
  rewrite Hz. destruct (Z.ltb_spec z 0) as [Hneg|_]; [lia|]. reflexivity.
Qed.

Lemma fold_appendHeader : forall hs acc,
  Forall naturalLevel hs ->
  fold_left appendHeader hs (Ok acc) = Ok (acc ++ headingLines hs)%string.
Proof.
  induction hs as [|h hs IH]; intros acc Hnat; cbn [fold_left headingLines].
  - f_equal. induction acc as [|x acc IHacc]; simpl; [reflexivity|].
    now rewrite <- IHacc.
  - inversion Hnat; subst.
    rewrite appendHeader_natural by assumption.
    rewrite IH by assumption. now rewrite append_assoc.
Qed.

Lemma frontMatter_append currentDateTime articleData rest :
  (frontMatter currentDateTime articleData ++ rest
   = "---" ++ LF ++
     "tags: wikipedia" ++ LF ++
     "---" ++ LF ++
     LF ++
     currentDateTime ++ LF ++
     "**Related Topics**:" ++ LF ++
     "**Link**: " ++ link articleData ++ LF ++
     "# " ++ title articleData ++ " #wikipedia" ++ LF ++
     rest)%string.
Proof.
  unfold frontMatter. now rewrite !append_assoc.
Qed.

Lemma formatMarkdown_natural currentDateTime articleData :
  Forall naturalLevel (headers articleData) ->
  formatMarkdown currentDateTime articleData
  = Ok (frontMatter currentDateTime articleData
          ++ match headers articleData with
             | [] => noSections
             | _ :: _ => sectionsHeading ++ headingLines (headers articleData)
             end
          ++ LF)%string.
Proof.
  intro Hnat. unfold formatMarkdown.
  destruct (headers articleData) as [|h hs] eqn:Hh.
  - cbn [List.length Nat.ltb Nat.leb]. cbv iota.
    now rewrite frontMatter_append.
  - change (0 <? List.length (h :: hs))%nat with true. cbv iota.
    change (LF ++ "## Sections:" ++ LF)%string with sectionsHeading.
    rewrite fold_appendHeader by assumption.
    now rewrite frontMatter_append.
Qed.

(** C4, as the code has it: for every candidate whose records have natural
    levels, [formatMarkdown] gives the front matter, the time stamp, the
    link line and the title heading, then a blank line and the fixed
    heading line [## Sections:], then one heading line per record, its
    marker as long as the level of the record, each followed by a blank
    line; with no record, the placeholder stands in their place. *)
Theorem formatMarkdown_renders
    (currentDateTime : string) (articleData : ArticleData) :
  Forall naturalLevel (headers articleData) ->
  formatMarkdown currentDateTime articleData
  = Ok (frontMatter currentDateTime articleData
          ++ match headers articleData with
             | [] => noSections
             | _ :: _ => sectionsHeading ++ headingLines (headers articleData)
             end
          ++ LF)%string
  /\ forall header, In header (headers articleData) ->
       Num (Z.of_nat (String.length (headingMarker header))) = level header.
Proof.
  intro Hnat. split.
  - now apply formatMarkdown_natural.
  - intros header Hin. apply headingMarker_length.
    now apply (proj1 (Forall_forall _ _) Hnat).
Qed.

Lemma formatMarkdown_renders_witness :
  formatMarkdown "2024-01-01 10:00:00" article_foo
  = Ok (frontMatter "2024-01-01 10:00:00" article_foo
          ++ sectionsHeading ++ headingLines (headers article_foo) ++ LF)%string
  /\ forall header, In header (headers article_foo) ->
       Num (Z.of_nat (String.length (headingMarker header))) = level header.
Proof.
  apply (formatMarkdown_renders "2024-01-01 10:00:00" article_foo).
  repeat constructor. exists 2%Z. split; [reflexivity | lia].
Defined.

(** C4, as stated, fails on the candidate of the example: between the
    title heading and the heading line of the record stands another
    heading line, [## Sections:]. *)
Lemma sections_heading_interposed :
  renderedLines (formatMarkdown "2024-01-01 10:00:00" article_foo)
  = ["---";
     "tags: wikipedia";
     "---";
     "";
     "2024-01-01 10:00:00";
     "**Related Topics**:";
     "**Link**: https://en.wikipedia.org/wiki/Foo";
     "# Foo #wikipedia";
     "";
     "## Sections:";
     "## History";
     "";
     "";
     ""]%string.
Proof. reflexivity. Qed.

(** C5: for every candidate with no heading, the note holds the
    placeholder line, and nothing after the title heading has a heading
    marker in it. *)
Theorem formatMarkdown_placeholder
    (currentDateTime : string) (articleData : ArticleData) :
  headers articleData = [] ->
  formatMarkdown currentDateTime articleData
  = Ok (frontMatter currentDateTime articleData
          ++ LF ++ "No significant sections found for this article." ++ LF
          ++ LF ++ LF)%string
  /\ absent "#" (LF ++ "No significant sections found for this article." ++ LF
                  ++ LF ++ LF) = true.
Proof.
  intro Hnone. split; [|reflexivity].
  rewrite formatMarkdown_natural by (rewrite Hnone; constructor).
  rewrite Hnone. reflexivity.
Qed.

Lemma formatMarkdown_placeholder_witness :
  formatMarkdown "2024-01-01 10:00:00" article_bare
  = Ok (frontMatter "2024-01-01 10:00:00" article_bare
          ++ LF ++ "No significant sections found for this article." ++ LF
          ++ LF ++ LF)%string
  /\ absent "#" (LF ++ "No significant sections found for this article." ++ LF
                  ++ LF ++ LF) = true.
Proof.
  apply (formatMarkdown_placeholder "2024-01-01 10:00:00" article_bare).
  reflexivity.
Defined.

(* ===================================================================== *)
(** * The acquisition loop: one attempt *)
(* ===================================================================== *)

Section AcquisitionFacts.
Context {platform : Platform}.
Variable settings : RandomWikipediaArticleSettings.
Variable world : World.

Ltac step :=
  cbn -[apiUrl wikiLink randomTitleUrl String.append string_of_Z string_of_nat
        parseWikipediaHtml Z.leb Z.of_nat].

Ltac run_attempt :=
  unfold iteration, tryBlock, acceptOrRetry, catchBlock, try_catch,
    bind, get, newNotice, console_error, setTimeout, fetch, response_json,
    modify, ret, throw, fetched, emit, set_articleTitle, set_articleLink,
    set_articleHtml, set_parsedHeaders;
  step;
  repeat match goal with
         | |- context [items_0_title ?d] => destruct (items_0_title d); step
         | |- context [encodeURIComponent ?t] =>
             destruct (encodeURIComponent t); step
         | |- context [network world ?i ?u] =>
             destruct (network world i u) as [[[] ? []]|]; step
         end.

(** What the [try] block does, by what the network has for the attempt:
    it throws the error and keeps the counter, or it stores the article
    and its headings and then either finds the article suitable or counts
    one attempt more. *)
Lemma tryBlock_cases s :
  match fetched world (retries s) with
  | Throw e =>
      exists s' calls,
        tryBlock settings world s = (Throw e, s')
        /\ foundSuitableArticle s' = foundSuitableArticle s
        /\ retries s' = retries s
        /\ trace s' = trace s ++ map Fetch calls
  | Ok (t, l, h) =>
      let hs := parseWikipediaHtml settings h in
      exists s',
        tryBlock settings world s = (Ok tt, s')
        /\ articleTitle s' = t /\ articleLink s' = l /\ articleHtml s' = h
        /\ parsedHeaders s' = hs
        /\ trace s' = trace s ++ [Fetch randomTitleUrl; Fetch (apiUrl t)]
        /\ if (minHeaders settings <=? Z.of_nat (List.length hs))%Z
           then foundSuitableArticle s' = true /\ retries s' = retries s
           else foundSuitableArticle s' = foundSuitableArticle s
                /\ retries s' = retries s + 1
  end.
Proof.
  run_attempt.
  all: try solve [eexists; exists [randomTitleUrl]; repeat split].
  all: try solve [eexists; eexists [_; _]; repeat split; cbn;
                  rewrite <- app_assoc; reflexivity].
  destruct (Z.leb _ _) eqn:enough;
    eexists; repeat split; cbn; try rewrite enough; cbn;
    try rewrite <- app_assoc; auto.
Qed.

(** One turn of the loop never throws: it ends with the counter one
    higher after an error, and as the [try] block left things otherwise. *)
Lemma iteration_cases s :
  match fetched world (retries s) with
  | Throw e =>
      exists s' calls,
        iteration settings world s = (Ok tt, s')
        /\ foundSuitableArticle s' = foundSuitableArticle s
        /\ retries s' = retries s + 1
        /\ trace s'
           = trace s
             ++ fetchingNotice (retries s + 1) :: map Fetch calls
             ++ [ConsoleError ("Fetch/parse error (attempt "
                                 ++ string_of_nat (retries s + 1) ++ "):") e;
                 parseFailedNotice (retries s + 1);
                 SetTimeout 500]
  | Ok (t, l, h) =>
      let hs := parseWikipediaHtml settings h in
      exists s',
        iteration settings world s = (Ok tt, s')
        /\ articleTitle s' = t /\ articleLink s' = l /\ articleHtml s' = h
        /\ parsedHeaders s' = hs
        /\ trace s'
           = trace s ++ [fetchingNotice (retries s + 1);
                         Fetch randomTitleUrl; Fetch (apiUrl t)]
        /\ if (minHeaders settings <=? Z.of_nat (List.length hs))%Z
           then foundSuitableArticle s' = true /\ retries s' = retries s
           else foundSuitableArticle s' = foundSuitableArticle s
                /\ retries s' = retries s + 1
  end.
Proof.
  pose proof (tryBlock_cases (emit (fetchingNotice (retries s + 1)) s)) as Htry.
  change (retries (emit (fetchingNotice (retries s + 1)) s))
    with (retries s) in Htry.
  unfold iteration, bind, get, newNotice, modify, try_catch.
  change (Notice ("Fetching... (Attempt " ++ string_of_nat (retries s + 1) ++ ")")
            1500) with (fetchingNotice (retries s + 1)).
  destruct (fetched world (retries s)) as [[[t l] h]|e].
  - destruct Htry as (s' & -> & Ht & Hl & Hh & Hhs & Htr & Hfound).
    exists s'. repeat split; try assumption.
    rewrite Htr. cbn. now rewrite <- app_assoc.
  - destruct Htry as (s' & calls & -> & Hfound & Hretries & Htr).
    unfold catchBlock, bind, get, console_error, newNotice, setTimeout, modify.
    eexists. exists calls. split; [reflexivity|]. cbn.
    rewrite Hfound, Hretries, Htr. cbn.
    repeat split. rewrite <- !app_assoc. reflexivity.
Qed.

Lemma iteration_returns s :
  exists s', iteration settings world s = (Ok tt, s').
Proof.
  pose proof (iteration_cases s) as H.
  destruct (fetched world (retries s)) as [[[t l] h]|e].
  - destruct H as (s' & -> & _). now exists s'.
  - destruct H as (s' & calls & -> & _). now exists s'.
Qed.

(** ** The loop *)

Lemma while_stops s :
  continue settings s = false -> while settings world s = (Ok tt, s).
Proof.
  apply (while_elim settings world
           (fun s r => continue settings s = false -> r = (Ok tt, s))).
  - reflexivity.
  - intros s0 a s' turn running _ _ _ Hstop. congruence.
  - intros s0 e s' turn running _ _ Hstop. congruence.
Qed.

Lemma while_step s :
  while settings world s
  = if continue settings s
    then match iteration settings world s with
         | (Ok _, s') => while settings world s'
         | (Throw e, s') => (Throw e, s')
         end
    else (Ok tt, s).
Proof.
  apply (while_elim settings world
           (fun s r =>
              r = if continue settings s
                  then match iteration settings world s with
                       | (Ok _, s') => while settings world s'
                       | (Throw e, s') => (Throw e, s')
                       end
                  else (Ok tt, s))).
  - intros s0 stop _. now rewrite stop.
  - intros s0 a s' turn running _ _ _. now rewrite running, turn.
  - intros s0 e s' turn running _ _. now rewrite running, turn.
Qed.

(** A property that every turn preserves holds when the loop ends, and
    the loop does end, without an error. *)
Lemma while_invariant (P : state -> Prop) :
  (forall s s', P s -> continue settings s = true ->
                iteration settings world s = (Ok tt, s') -> P s') ->
  forall s, P s ->
  exists s', while settings world s = (Ok tt, s')
             /\ P s' /\ continue settings s' = false.
Proof.
  intro Hturn.
  apply (while_elim settings world
           (fun s r => P s -> exists s', r = (Ok tt, s')
                                        /\ P s' /\ continue settings s' = false)).
  - intros s stop _ HP. now exists s.
  - intros s [] s' turn running IH _ _ HP.
    apply IH. now apply (Hturn s s').
  - intros s e s' turn running _ _ HP.
    destruct (iteration_returns s) as (s'' & Hs''). congruence.
Qed.

End AcquisitionFacts.

(* ===================================================================== *)
(** * The acquisition loop: what a run gives *)
(* ===================================================================== *)

(** C2: whatever the network does at each attempt, a run of the loop does
    not throw: it returns an article record or null. *)
Theorem loop_never_throws
    (platform : Platform) (settings : RandomWikipediaArticleSettings)
    (world : World) :
  (exists articleData tr,
      fetchAndProcessRandomWikipediaArticle settings world
      = (Ok (Some articleData), tr))
  \/ (exists tr,
         fetchAndProcessRandomWikipediaArticle settings world = (Ok None, tr)).
Proof.
  unfold fetchAndProcessRandomWikipediaArticle, fetchAndProcess, bind, get.
  destruct (while_invariant settings world (fun _ => True)
              (fun _ _ _ _ _ => I) initial I) as (s & -> & _ & _).
  destruct (foundSuitableArticle s).
  - left. eexists. eexists. reflexivity.
  - right. eexists. reflexivity.
Qed.

(** C3: with [maxRetries] at 0 the loop returns null, and the only thing
    it does is to show the final notice: no network call is made. *)
Theorem no_retries_no_fetch
    (platform : Platform) (settings : RandomWikipediaArticleSettings)
    (world : World) :
  maxRetries settings = 0%Z ->
  fetchAndProcessRandomWikipediaArticle settings world
  = (Ok None,
     [Notice "ERROR: No suitable article after 0 attempts. Adjust settings."
        5000])
  /\ networkCalls (snd (fetchAndProcessRandomWikipediaArticle settings world))
     = [].
Proof.
  intro Hzero.
  assert (Hrun : fetchAndProcessRandomWikipediaArticle settings world
                 = (Ok None,
                    [Notice "ERROR: No suitable article after 0 attempts. Adjust settings."
                       5000])).
  { unfold fetchAndProcessRandomWikipediaArticle, fetchAndProcess, bind, get.
    rewrite while_stops by (unfold continue; rewrite Hzero; reflexivity).
    cbn. now rewrite Hzero. }
  rewrite Hrun. split; reflexivity.
Qed.

Lemma no_retries_no_fetch_witness :
  @fetchAndProcessRandomWikipediaArticle sample_platform (two_headers 0)
    (sample_world (serving "Foo" markup_history))
  = (Ok None,
     [Notice "ERROR: No suitable article after 0 attempts. Adjust settings."
        5000])
  /\ networkCalls
       (snd (@fetchAndProcessRandomWikipediaArticle sample_platform
               (two_headers 0) (sample_world (serving "Foo" markup_history))))
     = [].
Proof.
  apply (no_retries_no_fetch sample_platform (two_headers 0)
           (sample_world (serving "Foo" markup_history))).
  reflexivity.
Defined.

(** C6: the test that accepts an article is the comparison of lengths:
    for any headings and any natural [n] as [minHeaders], it accepts
    exactly when there are at least [n] headings; it does not throw and
    leaves no trace. *)
Theorem acceptance_is_length_comparison
    (settings : RandomWikipediaArticleSettings)
    (h : list ParsedHeader) (n : nat) (s : state) :
  minHeaders settings = Z.of_nat n ->
  foundSuitableArticle s = false ->
  exists s',
    acceptOrRetry settings (set_parsedHeaders h s) = (Ok tt, s')
    /\ trace s' = trace s
    /\ (foundSuitableArticle s' = true <-> n <= List.length h).
Proof.
  intros Hmin Hfound. unfold acceptOrRetry, bind, get, modify. cbn.
  rewrite Hmin.
  destruct (Z.leb_spec (Z.of_nat n) (Z.of_nat (List.length h))) as [Hle|Hgt].
  - eexists. split; [reflexivity|]. cbn. split; [reflexivity|].
    split; [lia | reflexivity].
  - eexists. split; [reflexivity|]. cbn. split; [reflexivity|].
    rewrite Hfound. split; [discriminate | lia].
Qed.

Lemma acceptance_is_length_comparison_witness :
  exists s',
    acceptOrRetry (two_headers 5)
      (set_parsedHeaders (headers article_foo) initial) = (Ok tt, s')
    /\ trace s' = trace initial
    /\ (foundSuitableArticle s' = true
        <-> 2 <= List.length (headers article_foo)).
Proof.
  apply (acceptance_is_length_comparison (two_headers 5)
           (headers article_foo) 2 initial); reflexivity.
Defined.

(** ** Notices *)

Lemma notices_app tr1 tr2 : notices (tr1 ++ tr2) = notices tr1 ++ notices tr2.
Proof. apply filter_app. Qed.

Lemma notices_fetch calls : notices (map Fetch calls) = [].
Proof. induction calls; [reflexivity | assumption]. Qed.

Lemma failureNotices_snoc : forall n first,
  failureNotices first (S n)
  = failureNotices first n
    ++ [fetchingNotice (first + n); parseFailedNotice (first + n)].
Proof.
  induction n as [|n IH]; intro first.
  - cbn. now rewrite Nat.add_0_r.
  - change (failureNotices first (S (S n)))
      with (fetchingNotice first :: parseFailedNotice first
              :: failureNotices (S first) (S n)).
    rewrite IH. cbn. now rewrite Nat.add_succ_r.
Qed.

Lemma filter_fetching_notices tr :
  filter isFetchingNotice tr = filter isFetchingNotice (notices tr).
Proof.
  induction tr as [|ev tr IH]; [reflexivity|].
  destruct ev; cbn; try assumption.
  destruct (prefix _ _); [now rewrite IH | assumption].
Qed.

Lemma filter_parseFailed_notices tr :
  filter isParseFailedNotice tr = filter isParseFailedNotice (notices tr).
Proof.
  induction tr as [|ev tr IH]; [reflexivity|].
  destruct ev; cbn; try assumption.
  destruct (prefix _ _); [now rewrite IH | assumption].
Qed.

Lemma count_fetching_failureNotices : forall n first,
  List.length (filter isFetchingNotice (failureNotices first n)) = n.
Proof.
  induction n as [|n IH]; intro first; [reflexivity|].
  cbn -[string_of_nat]. now rewrite IH.
Qed.

Lemma count_parseFailed_failureNotices : forall n first,
  List.length (filter isParseFailedNotice (failureNotices first n)) = n.
Proof.
  induction n as [|n IH]; intro first; [reflexivity|].
  cbn -[string_of_nat]. now rewrite IH.
Qed.

(** ** What the network has for an attempt *)

Lemma fetched_link {platform : Platform} world i t l h :
  fetched world i = Ok (t, l, h) ->
  exists encoded, encodeURIComponent t = Some encoded /\ l = wikiLink encoded.
Proof.
  unfold fetched.
  destruct (network world i randomTitleUrl) as [[[] ? [d1|]]|];
    cbn [negb ok json status]; try discriminate.
  destruct (items_0_title d1) as [t'|]; try discriminate.
  destruct (encodeURIComponent t') as [enc|] eqn:Henc; try discriminate.
  destruct (network world i (apiUrl t')) as [[[] ? [d2|]]|];
    cbn [negb ok json status]; try discriminate.
  intro H. injection H as <- <- <-. now exists enc.
Qed.

Lemma not_suitable_failed {platform : Platform} settings world i e :
  fetched world i = Throw e -> ~ attemptSuitable settings world i.
Proof. intros Hf (t & l & h & Hok & _). congruence. Qed.

Lemma not_suitable_few {platform : Platform} settings world i t l h :
  fetched world i = Ok (t, l, h) ->
  (minHeaders settings
   <=? Z.of_nat (List.length (parseWikipediaHtml settings h)))%Z = false ->
  ~ attemptSuitable settings world i.
Proof.
  intros Hf Hfew (t' & l' & h' & Hok & Hmin).
  rewrite Hf in Hok. injection Hok as <- <- <-.
  apply Z.leb_gt in Hfew. lia.
Qed.

(** ** The first attempt *)

(** C7, as the code has it: when [maxRetries] is at least 1 and every
    attempt completes without error with enough headings, the loop makes
    one attempt, the first, and returns its article. *)
Theorem accepts_on_first_attempt
    (platform : Platform) (settings : RandomWikipediaArticleSettings)
    (world : World) :
  (1 <= maxRetries settings)%Z ->
  (forall i, attemptSuitable settings world i) ->
  exists t l h,
    fetched world 0 = Ok (t, l, h)
    /\ fetchAndProcessRandomWikipediaArticle settings world
       = (Ok (Some {| title := t; link := l;
                      headers := parseWikipediaHtml settings h;
                      datePrefix := moment_format world "YYYY-MM-DD" |}),
          [fetchingNotice 1; Fetch randomTitleUrl; Fetch (apiUrl t)]).
Proof.
  intros Hmax Hall.
  destruct (Hall 0) as (t & l & h & Hfetched & Hmin).
  exists t, l, h. split; [assumption|].
  pose proof (iteration_cases settings world initial) as Hturn.
  change (retries initial) with 0 in Hturn. rewrite Hfetched in Hturn.
  cbv zeta in Hturn.
  destruct Hturn as (s & Hs & Ht & Hl & Hh & Hhs & Htr & Hfound).
  apply Z.leb_le in Hmin. rewrite Hmin in Hfound.
  destruct Hfound as [Hfound Hretries].
  unfold fetchAndProcessRandomWikipediaArticle, fetchAndProcess, bind, get.
  rewrite while_step.
  assert (Hgo : continue settings initial = true).
  { unfold continue. cbn. apply Z.ltb_lt. lia. }
  rewrite Hgo, Hs.
  rewrite while_stops by (unfold continue; now rewrite Hfound).
  rewrite Hfound. unfold ret. cbn [trace]. rewrite Ht, Hl, Hhs, Htr. reflexivity.
Qed.

Lemma serving_suitable i :
  @attemptSuitable sample_platform (two_headers 5)
    (sample_world (serving "Foo" markup_history)) i.
Proof.
  exists "Foo", "https://en.wikipedia.org/wiki/Foo", markup_history.
  split; [reflexivity|]. vm_compute. discriminate.
Qed.

Lemma accepts_on_first_attempt_witness :
  exists t l h,
    @fetched sample_platform (sample_world (serving "Foo" markup_history)) 0
    = Ok (t, l, h)
    /\ @fetchAndProcessRandomWikipediaArticle sample_platform (two_headers 5)
         (sample_world (serving "Foo" markup_history))
       = (Ok (Some {| title := t; link := l;
                      headers := @parseWikipediaHtml sample_platform
                                   (two_headers 5) h;
                      datePrefix := "2024-01-01" |}),
          [fetchingNotice 1; Fetch randomTitleUrl;
           Fetch (@apiUrl sample_platform t)]).
Proof.
  apply (accepts_on_first_attempt sample_platform (two_headers 5)
           (sample_world (serving "Foo" markup_history))).
  - simpl. lia.
  - exact serving_suitable.
Defined.

(** C7, as stated, fails when [maxRetries] is 0: every attempt would
    complete without error with enough headings, and the loop returns
    null without making any. *)
Lemma no_attempt_no_article :
  (forall i,
      @attemptSuitable sample_platform (two_headers 0)
        (sample_world (serving "Foo" markup_history)) i)
  /\ @fetchAndProcessRandomWikipediaArticle sample_platform (two_headers 0)
       (sample_world (serving "Foo" markup_history))
     = (Ok None,
        [Notice "ERROR: No suitable article after 0 attempts. Adjust settings."
           5000]).
Proof.
  split; [|reflexivity].
  intro i. exists "Foo", "https://en.wikipedia.org/wiki/Foo", markup_history.
  split; [reflexivity|]. vm_compute. discriminate.
Qed.

(** ** Errors before the first success *)

Section FirstSuccess.
Context {platform : Platform}.
Variable settings : RandomWikipediaArticleSettings.
Variable world : World.
Variable k : nat.
Hypothesis k_positive : 1 <= k.
Hypothesis k_within : (Z.of_nat k <= maxRetries settings)%Z.
Hypothesis earlier_fail : forall i, i < k - 1 -> attemptFails world i.
Hypothesis last_suitable : attemptSuitable settings world (k - 1).

Lemma counting_turn s s' :
  countsFailures k s -> continue settings s = true ->
  iteration settings world s = (Ok tt, s') -> countsFailures k s'.
Proof.
  intros [Hsearching _] Hgo Hturn.
  apply andb_prop in Hgo. destruct Hgo as [Hnot _].
  apply negb_true_iff in Hnot.
  destruct (Hsearching Hnot) as [Hle Hnotices].
  pose proof (iteration_cases settings world s) as Hcases.
  destruct (Nat.eq_dec (retries s) (k - 1)) as [Hlast | Hbefore].
  - destruct last_suitable as (t & l & h & Hfetched & Hmin).
    rewrite Hlast, Hfetched in Hcases. cbv zeta in Hcases.
    destruct Hcases as (s1 & Hs1 & _ & _ & _ & _ & Htr & Hfound).
    assert (s1 = s') by congruence. subst s1.
    apply Z.leb_le in Hmin. rewrite Hmin in Hfound.
    destruct Hfound as [Hfound Hretries].
    split; [congruence|]. intros _. split; [congruence|].
    rewrite Htr, notices_app, Hnotices, Hlast.
    replace (k - 1 + 1) with k by lia. reflexivity.
  - destruct (earlier_fail (retries s)) as (e & Hfetched); [lia|].
    rewrite Hfetched in Hcases.
    destruct Hcases as (s1 & calls & Hs1 & Hfound & Hretries & Htr).
    assert (s1 = s') by congruence. subst s1.
    split; [|congruence]. intros _. split; [lia|].
    rewrite Htr, notices_app, Hnotices, Hretries.
    replace (retries s + 1) with (S (retries s)) by lia.
    rewrite failureNotices_snoc. f_equal.
    cbn [notices filter isNotice fetchingNotice app].
    unfold notices. rewrite filter_app.
    fold (notices (map Fetch calls)). rewrite notices_fetch. reflexivity.
Qed.

Lemma first_success :
  exists articleData s,
    fetchAndProcess settings world initial = (Ok (Some articleData), s)
    /\ retries s = k - 1
    /\ notices (trace s) = failureNotices 1 (k - 1) ++ [fetchingNotice k].
Proof.
  destruct (while_invariant settings world (countsFailures k) counting_turn
              initial) as (s & Hwhile & [Hsearching Hfound] & Hstop).
  { split; [|discriminate]. intros _. split; [cbn; lia | reflexivity]. }
  unfold fetchAndProcess, bind, get. rewrite Hwhile.
  destruct (foundSuitableArticle s) eqn:Hf.
  - destruct (Hfound eq_refl) as [Hretries Hnotices].
    eexists. exists s. repeat split; assumption.
  - destruct (Hsearching eq_refl) as [Hle _].
    unfold continue in Hstop. rewrite Hf in Hstop. cbn in Hstop.
    apply Z.ltb_ge in Hstop. lia.
Qed.

End FirstSuccess.

(** C8: for [k] from 1 to [maxRetries], when the first [k - 1] attempts
    fail with an error and the [k]-th completes with enough headings, the
    loop returns the article with the counter at [k - 1]; its notices are
    the announcement and the error notice of each failed attempt, numbered
    from 1, then the announcement of attempt [k]: [k] attempts announced,
    [k - 1] error notices. *)
Theorem first_success_at_k
    (platform : Platform) (settings : RandomWikipediaArticleSettings)
    (world : World) (k : nat) :
  1 <= k -> (Z.of_nat k <= maxRetries settings)%Z ->
  (forall i, i < k - 1 -> attemptFails world i) ->
  attemptSuitable settings world (k - 1) ->
  exists articleData s,
    fetchAndProcess settings world initial = (Ok (Some articleData), s)
    /\ retries s = k - 1
    /\ notices (trace s) = failureNotices 1 (k - 1) ++ [fetchingNotice k]
    /\ List.length (filter isFetchingNotice (trace s)) = k
    /\ List.length (filter isParseFailedNotice (trace s)) = k - 1.
Proof.
  intros Hpos Hwithin Hfail Hlast.
  destruct (first_success settings world k Hpos Hwithin Hfail Hlast)
    as (a & s & Hrun & Hretries & Hnotices).
  exists a, s. repeat split; try assumption.
  - rewrite filter_fetching_notices, Hnotices, filter_app, length_app.
    rewrite count_fetching_failureNotices. cbn -[string_of_nat]. lia.
  - rewrite filter_parseFailed_notices, Hnotices, filter_app, length_app.
    rewrite count_parseFailed_failureNotices. cbn -[string_of_nat]. lia.
Qed.

Lemma first_success_at_k_witness :
  exists articleData s,
    @fetchAndProcess sample_platform (two_headers 5)
      (sample_world (flaky "Foo" markup_history)) initial
    = (Ok (Some articleData), s)
    /\ retries s = 3 - 1
    /\ notices (trace s) = failureNotices 1 (3 - 1) ++ [fetchingNotice 3]
    /\ List.length (filter isFetchingNotice (trace s)) = 3
    /\ List.length (filter isParseFailedNotice (trace s)) = 3 - 1.
Proof.
  apply (first_success_at_k sample_platform (two_headers 5)
           (sample_world (flaky "Foo" markup_history)) 3).
  - lia.
  - simpl. lia.
  - intros i Hi. destruct i as [|[|i]].
    + exists FetchFailed. reflexivity.
    + exists (Error "MediaWiki API error: 503"). reflexivity.
    + lia.
  - exists "Foo", "https://en.wikipedia.org/wiki/Foo", markup_history.
    split; [reflexivity|]. vm_compute. discriminate.
Defined.

(** ** The record returned *)

Lemma accepted_turn {platform : Platform} settings world s s' :
  acceptedFrom settings world s -> continue settings s = true ->
  iteration settings world s = (Ok tt, s') -> acceptedFrom settings world s'.
Proof.
  intros [_ Hearlier] Hgo Hturn.
  apply andb_prop in Hgo. destruct Hgo as [Hnot _].
  apply negb_true_iff in Hnot.
  pose proof (iteration_cases settings world s) as Hcases.
  destruct (fetched world (retries s)) as [[[t l] h]|e] eqn:Hfetched.
  - cbv zeta in Hcases.
    destruct Hcases as (s1 & Hs1 & Ht & Hl & Hh & Hhs & _ & Hfound).
    assert (s1 = s') by congruence. subst s1.
    destruct (Z.leb _ _) eqn:Hmin; destruct Hfound as [Hfound Hretries].
    + split.
      * intros _.
        destruct (fetched_link world _ _ _ _ Hfetched) as (enc & Henc & ->).
        exists t, enc, h. rewrite Hretries, Hhs.
        apply Z.leb_le in Hmin. auto 10.
      * now rewrite Hretries.
    + split; [congruence|]. intros j Hj.
      destruct (Nat.eq_dec j (retries s)) as [-> | Hne].
      * now apply (not_suitable_few settings world (retries s) t l h).
      * apply Hearlier. lia.
  - destruct Hcases as (s1 & calls & Hs1 & Hfound & Hretries & _).
    assert (s1 = s') by congruence. subst s1.
    split; [congruence|]. intros j Hj.
    destruct (Nat.eq_dec j (retries s)) as [-> | Hne].
    + now apply (not_suitable_failed settings world (retries s) e).
    + apply Hearlier. lia.
Qed.

(** C10: a record returned by the loop is that of one attempt, the one
    that was accepted: its title and its link (the Wikipedia URL of the
    URI-encoded title) are those of the title fetched in that attempt, its
    headers are [parseWikipediaHtml] of the markup fetched in that
    attempt, there are at least [minHeaders] of them, and no earlier
    attempt was a suitable one. *)
Theorem accepted_record_consistent
    (platform : Platform) (settings : RandomWikipediaArticleSettings)
    (world : World) (articleData : ArticleData) (tr : list event) :
  fetchAndProcessRandomWikipediaArticle settings world
  = (Ok (Some articleData), tr) ->
  exists i t encoded h,
    fetched world i = Ok (t, wikiLink encoded, h)
    /\ encodeURIComponent t = Some encoded
    /\ title articleData = t
    /\ link articleData = wikiLink encoded
    /\ headers articleData = parseWikipediaHtml settings h
    /\ (minHeaders settings
        <= Z.of_nat (List.length (headers articleData)))%Z
    /\ forall j, j < i -> ~ attemptSuitable settings world j.
Proof.
  unfold fetchAndProcessRandomWikipediaArticle, fetchAndProcess, bind, get.
  destruct (while_invariant settings world (acceptedFrom settings world)
              (accepted_turn settings world) initial)
    as (s & -> & [Hfound Hearlier] & _).
  { split; [discriminate|]. intros j Hj. cbn in Hj. lia. }
  destruct (foundSuitableArticle s); [|discriminate].
  intro Hrun. injection Hrun as <- _.
  destruct (Hfound eq_refl) as (t & enc & h & Hf & Henc & Ht & Hl & Hhs & Hmin).
  exists (retries s), t, enc, h. cbn. auto 10.
Qed.

Lemma accepted_record_consistent_witness :
  exists i t encoded h,
    @fetched sample_platform (sample_world (flaky "Foo" markup_history)) i
    = Ok (t, wikiLink encoded, h)
    /\ @encodeURIComponent sample_platform t = Some encoded
    /\ "Foo" = t
    /\ "https://en.wikipedia.org/wiki/Foo" = wikiLink encoded
    /\ [{| level := Num 2; text := "History" |};
        {| level := Num 3; text := "Early years" |}]
       = @parseWikipediaHtml sample_platform (two_headers 5) h
    /\ (2 <= 2)%Z
    /\ forall j, j < i ->
         ~ @attemptSuitable sample_platform (two_headers 5)
             (sample_world (flaky "Foo" markup_history)) j.
Proof.
  apply (accepted_record_consistent sample_platform (two_headers 5)
           (sample_world (flaky "Foo" markup_history))
           {| title := "Foo";
              link := "https://en.wikipedia.org/wiki/Foo";
              headers := [{| level := Num 2; text := "History" |};
                          {| level := Num 3; text := "Early years" |}];
              datePrefix := "2024-01-01" |}
           [fetchingNotice 1;
            Fetch randomTitleUrl;
            ConsoleError "Fetch/parse error (attempt 1):" FetchFailed;
            parseFailedNotice 1;
            SetTimeout 500;
            fetchingNotice 2;
            Fetch randomTitleUrl;
            Fetch (@apiUrl sample_platform "Foo");
            ConsoleError "Fetch/parse error (attempt 2):"
              (Error "MediaWiki API error: 503");
            parseFailedNotice 2;
            SetTimeout 500;
            fetchingNotice 3;
            Fetch randomTitleUrl;
            Fetch (@apiUrl sample_platform "Foo")]).
  vm_compute. reflexivity.
Defined.

(* ===================================================================== *)
(** * More about the extracted headings *)
(* ===================================================================== *)

Lemma subsequence_refl {A} (l : list A) : subsequence l l.
Proof. induction l; constructor; assumption. Qed.

Lemma subsequence_snoc_skip {A} (l1 l2 : list A) x :
  subsequence l1 l2 -> subsequence l1 (l2 ++ [x]).
Proof.
  induction 1; simpl; repeat constructor; assumption.
Qed.

Lemma subsequence_snoc_keep {A} (l1 l2 : list A) x :
  subsequence l1 l2 -> subsequence (l1 ++ [x]) (l2 ++ [x]).
Proof.
  induction 1; simpl; repeat constructor; assumption.
Qed.

Lemma subsequence_length {A} (l1 l2 : list A) :
  subsequence l1 l2 -> List.length l1 <= List.length l2.
Proof. induction 1; simpl; lia. Qed.

Section MoreKeeping.
Context {platform : Platform}.
Variable D : list string.

Lemma includes_true l x : includes l x = true -> In x l.
Proof.
  unfold includes. intro H. apply existsb_exists in H.
  destruct H as (y & Hy & Heq). apply String.eqb_eq in Heq. now subst.
Qed.

Lemma strict_eq_true a b : strict_eq a b = true -> a = b.
Proof.
  destruct a, b; try discriminate. simpl. intro H.
  apply Z.eqb_eq in H. now subst.
Qed.

Lemma pushHeader_grows hs c h : In h hs -> In h (pushHeader D hs c).
Proof.
  destruct c as [lvl txt]. unfold pushHeader. intro Hin.
  destruct (includes D (toLowerCase txt)); [assumption|].
  destruct (existsb _ hs); simpl; [assumption|].
  apply in_or_app. now left.
Qed.

Lemma fold_pushHeader_grows : forall cands hs h,
  In h hs -> In h (fold_left (pushHeader D) cands hs).
Proof.
  induction cands as [|c cands IH]; intros hs h Hin; simpl; [assumption|].
  apply IH. now apply pushHeader_grows.
Qed.

(** A pair that is not disallowed is in the array once it has been
    through the rules, as the record just pushed or as one found there. *)
Lemma pushHeader_keeps hs lvl txt :
  ~ In (toLowerCase txt) D ->
  In {| level := lvl; text := txt |} (pushHeader D hs (lvl, txt)).
Proof.
  intro Hallowed. unfold pushHeader.
  destruct (includes D (toLowerCase txt)) eqn:Hinc.
  - apply includes_true in Hinc. contradiction.
  - destruct (existsb _ hs) eqn:Hsome; simpl.
    + apply existsb_exists in Hsome. destruct Hsome as ([l t] & Hin & Heq).
      simpl in Heq. apply andb_prop in Heq. destruct Heq as [Ht Hl].
      apply String.eqb_eq in Ht. apply strict_eq_true in Hl. now subst.
    + apply in_or_app. right. now left.
Qed.

Lemma fold_pushHeader_complete : forall cands hs lvl txt,
  In (lvl, txt) cands -> ~ In (toLowerCase txt) D ->
  In {| level := lvl; text := txt |} (fold_left (pushHeader D) cands hs).
Proof.
  induction cands as [|c cands IH]; intros hs lvl txt Hin Hallowed;
    simpl in *; [contradiction|].
  destruct Hin as [-> | Hin].
  - apply fold_pushHeader_grows. now apply pushHeader_keeps.
  - now apply IH.
Qed.

Lemma fold_pushHeader_subsequence : forall cands hs done,
  subsequence (map (fun h => (level h, text h)) hs) done ->
  subsequence
    (map (fun h => (level h, text h)) (fold_left (pushHeader D) cands hs))
    (done ++ cands).
Proof.
  induction cands as [|[lvl txt] cands IH]; intros hs done Hsub; simpl.
  - now rewrite app_nil_r.
  - replace (done ++ (lvl, txt) :: cands)
      with ((done ++ [(lvl, txt)]) ++ cands) by now rewrite <- app_assoc.
    apply IH. unfold pushHeader.
    destruct (includes D (toLowerCase txt));
      [now apply subsequence_snoc_skip|].
    destruct (existsb _ hs); simpl; [now apply subsequence_snoc_skip|].
    rewrite map_app. simpl. now apply subsequence_snoc_keep.
Qed.

End MoreKeeping.

Lemma readHeadings_length {platform : Platform} doc0 : forall els doc,
  tracks mw_editsection doc0 doc ->
  Forall (fun el => exists m, subtree el doc0 = Some m /\ h2_h3_h4 m = true) els ->
  List.length (readHeadings doc els) = List.length els.
Proof.
  induction els as [|el0 els IH]; intros doc Htr Hres; simpl; [reflexivity|].
  inversion Hres as [|? ? (m1 & Hm1 & _) Hres']; subst.
  destruct (Htr el0 m1 Hm1) as (m & Hm & _).
  destruct (readHeading_resolved doc el0 m Hm) as (txt & Hread & _).
  pose proof (readHeading_tracks doc0 doc el0 Htr) as Htr'.
  destruct (readHeading doc el0) as [doc' h]. simpl in *. subst h.
  simpl. f_equal. now apply IH.
Qed.

Lemma parseWikipediaHtml_levels {platform : Platform} settings html h :
  In h (parseWikipediaHtml settings html) ->
  level h = Num 2 \/ level h = Num 3 \/ level h = Num 4.
Proof.
  intro Hin. rewrite parseWikipediaHtml_split in Hin.
  destruct (fold_pushHeader_from _ _ _ _ Hin) as [[] | Hread].
  pose proof (readHeadings_levels (parseFromString html)
                (headingElements (parseFromString html)) (parseFromString html)
                (tracks_refl _ _) (heading_resolves _)) as Hlevels.
  apply (proj1 (Forall_forall _ _) Hlevels) in Hread. exact Hread.
Qed.

(** X1: every record returned by [parseWikipediaHtml] has level 2, 3 or
    4, whatever the markup: the level is never [NaN]. *)
Theorem heading_levels_2_3_4
    (platform : Platform) (settings : RandomWikipediaArticleSettings)
    (htmlContent : string) (h : ParsedHeader) :
  In h (parseWikipediaHtml settings htmlContent) ->
  level h = Num 2 \/ level h = Num 3 \/ level h = Num 4.
Proof. apply parseWikipediaHtml_levels. Qed.

Lemma heading_levels_2_3_4_witness :
  level {| level := Num 3; text := "Early years" |} = Num 2
  \/ level {| level := Num 3; text := "Early years" |} = Num 3
  \/ level {| level := Num 3; text := "Early years" |} = Num 4.
Proof.
  apply (heading_levels_2_3_4 sample_platform DEFAULT_SETTINGS markup_history).
  vm_compute. right. left. reflexivity.
Defined.

(** X2: no heading is lost but to the two rules: a heading the callback
    reads, whose text in lower case is not a disallowed header, is in the
    array returned, with its level and its text. *)
Theorem no_heading_lost
    (platform : Platform) (settings : RandomWikipediaArticleSettings)
    (htmlContent : string) (lvl : number) (txt : string) :
  let doc := parseFromString htmlContent in
  In (lvl, txt) (readHeadings doc (headingElements doc)) ->
  ~ In (toLowerCase txt) (getProcessedDisallowedHeaders settings) ->
  In {| level := lvl; text := txt |} (parseWikipediaHtml settings htmlContent).
Proof.
  intros doc Hread Hallowed. rewrite parseWikipediaHtml_split.
  now apply fold_pushHeader_complete.
Qed.

Lemma no_heading_lost_witness :
  In {| level := Num 3; text := "Early years" |}
    (@parseWikipediaHtml sample_platform DEFAULT_SETTINGS markup_history).
Proof.
  apply (no_heading_lost sample_platform DEFAULT_SETTINGS markup_history).
  - vm_compute. right. left. reflexivity.
  - vm_compute. intuition discriminate.
Defined.

(** X3: the array keeps the order of the document: its (level, text)
    pairs are a subsequence of the pairs read along the node list, one
    pair being read for each heading element; so there are no more
    records than heading elements. *)
Theorem headings_in_document_order
    (platform : Platform) (settings : RandomWikipediaArticleSettings)
    (htmlContent : string) :
  let doc := parseFromString htmlContent in
  subsequence
    (map (fun h => (level h, text h)) (parseWikipediaHtml settings htmlContent))
    (readHeadings doc (headingElements doc))
  /\ List.length (readHeadings doc (headingElements doc))
     = List.length (headingElements doc)
  /\ List.length (parseWikipediaHtml settings htmlContent)
     <= List.length (headingElements doc).
Proof.
  intro doc.
  assert (Hsub : subsequence
            (map (fun h => (level h, text h))
               (parseWikipediaHtml settings htmlContent))
            (readHeadings doc (headingElements doc))).
  { rewrite parseWikipediaHtml_split.
    apply (fold_pushHeader_subsequence _ _ [] []). constructor. }
  assert (Hlen : List.length (readHeadings doc (headingElements doc))
                 = List.length (headingElements doc)).
  { apply (readHeadings_length doc); [apply tracks_refl | apply heading_resolves]. }
  repeat split; try assumption.
  apply subsequence_length in Hsub. rewrite length_map in Hsub. lia.
Qed.

Lemma processed_entry {platform : Platform} settings p :
  In p (split "," (disallowedHeaders settings)) ->
  trim p <> EmptyString ->
  In (toLowerCase (trim p)) (getProcessedDisallowedHeaders settings).
Proof.
  intros Hp Hne. unfold getProcessedDisallowedHeaders.
  apply in_map. apply filter_In. split.
  - now apply in_map.
  - destruct (trim p); [contradiction | reflexivity].
Qed.

(** X4: each entry of the comma-separated setting, trimmed, excludes the
    headings whose text is the same without regard to case: no record
    returned has a text that lower-cases to what the entry lower-cases
    to. *)
Theorem entry_excludes_heading
    (platform : Platform) (settings : RandomWikipediaArticleSettings)
    (htmlContent : string) (entry : string) (h : ParsedHeader) :
  In entry (split "," (disallowedHeaders settings)) ->
  trim entry <> EmptyString ->
  In h (parseWikipediaHtml settings htmlContent) ->
  toLowerCase (text h) <> toLowerCase (trim entry).
Proof.
  intros Hentry Hne Hin Heq.
  destruct (parseWikipediaHtml_kept settings htmlContent) as [_ Hex].
  apply (proj1 (Forall_forall _ _) Hex) in Hin. apply Hin.
  rewrite Heq. now apply processed_entry.
Qed.

Lemma entry_excludes_heading_witness :
  @toLowerCase sample_platform (text {| level := Num 2; text := "History" |})
  <> @toLowerCase sample_platform (@trim sample_platform " References").
Proof.
  apply (entry_excludes_heading sample_platform DEFAULT_SETTINGS
           markup_history " References").
  - vm_compute. right. left. reflexivity.
  - vm_compute. discriminate.
  - vm_compute. left. reflexivity.
Defined.

Lemma filter_all_blank (l : list string) :
  (forall p, In p l -> p = EmptyString) ->
  filter (fun h => (0 <? String.length h)%nat) l = [].
Proof.
  induction l as [|x l IH]; intro Hall; [reflexivity|].
  simpl. rewrite (Hall x) by now left. simpl. apply IH.
  intros p Hp. apply Hall. now right.
Qed.

(** X5: a setting made of blanks and commas only (the empty string
    included) disallows nothing: the processed list is empty and every
    heading read is in the array returned. *)
Theorem blank_setting_excludes_nothing
    (platform : Platform) (settings : RandomWikipediaArticleSettings)
    (htmlContent : string) :
  (forall p, In p (split "," (disallowedHeaders settings)) ->
             trim p = EmptyString) ->
  getProcessedDisallowedHeaders settings = []
  /\ forall lvl txt,
       In (lvl, txt) (readHeadings (parseFromString htmlContent)
                        (headingElements (parseFromString htmlContent))) ->
       In {| level := lvl; text := txt |}
          (parseWikipediaHtml settings htmlContent).
Proof.
  intro Hblank.
  assert (Hnone : getProcessedDisallowedHeaders settings = []).
  { unfold getProcessedDisallowedHeaders. rewrite filter_all_blank; [reflexivity|].
    intros p Hp. apply in_map_iff in Hp. destruct Hp as (q & <- & Hq).
    now apply Hblank. }
  split; [assumption|].
  intros lvl txt Hread. rewrite parseWikipediaHtml_split.
  apply fold_pushHeader_complete; [assumption|]. now rewrite Hnone.
Qed.

Lemma blank_setting_excludes_nothing_witness :
  @getProcessedDisallowedHeaders sample_platform blank_headers = []
  /\ forall lvl txt,
       In (lvl, txt)
          (@readHeadings sample_platform
             (@parseFromString sample_platform markup_references)
             (@headingElements sample_platform
                (@parseFromString sample_platform markup_references))) ->
       In {| level := lvl; text := txt |}
          (@parseWikipediaHtml sample_platform blank_headers markup_references).
Proof.
  apply (blank_setting_excludes_nothing sample_platform blank_headers
           markup_references).
  intros p Hp. vm_compute in Hp.
  destruct Hp as [<- | [<- | [<- | []]]]; reflexivity.
Defined.

(* ===================================================================== *)
(** * More about the rendered note *)
(* ===================================================================== *)

Lemma fold_appendHeader_thrown hs e :
  fold_left appendHeader hs (Throw e) = Throw e.
Proof. induction hs as [|h hs IH]; simpl; [reflexivity | assumption]. Qed.

Lemma fold_appendHeader_exact : forall hs acc,
  fold_left appendHeader hs (Ok acc)
  = if existsb negativeLevel hs then Throw RangeError
    else Ok (acc ++ headingLines hs)%string.
Proof.
  induction hs as [|h hs IH]; intro acc; cbn [fold_left headingLines existsb].
  - f_equal. induction acc as [|x acc IHacc]; simpl; [reflexivity|].
    now rewrite <- IHacc.
  - unfold appendHeader at 2, negativeLevel at 1, headingLine, headingMarker, repeat.
    destruct (level h) as [|z].
    + cbn [orb]. rewrite IH. destruct (existsb negativeLevel hs); [reflexivity|].
      now rewrite append_assoc.
    + destruct (z <? 0)%Z; cbn [orb].
      * apply fold_appendHeader_thrown.
      * rewrite IH. destruct (existsb negativeLevel hs); [reflexivity|].
        now rewrite append_assoc.
Qed.

Lemma formatMarkdown_exact currentDateTime articleData :
  formatMarkdown currentDateTime articleData
  = if existsb negativeLevel (headers articleData) then Throw RangeError
    else Ok (frontMatter currentDateTime articleData
               ++ match headers articleData with
                  | [] => noSections
                  | _ :: _ => sectionsHeading
                              ++ headingLines (headers articleData)
                  end
               ++ LF)%string.
Proof.
  unfold formatMarkdown.
  destruct (headers articleData) as [|h hs] eqn:Hh.
  - cbn [List.length Nat.ltb Nat.leb existsb]. cbv iota.
    now rewrite frontMatter_append.
  - change (0 <? List.length (h :: hs))%nat with true. cbv iota.
    change (LF ++ "## Sections:" ++ LF)%string with sectionsHeading.
    rewrite fold_appendHeader_exact.
    destruct (existsb negativeLevel (h :: hs)); [reflexivity|].
    now rewrite frontMatter_append.
Qed.


(* ===================================================================== *)
(** * More about the acquisition loop *)
(* ===================================================================== *)

Lemma networkCalls_app tr1 tr2 :
  networkCalls (tr1 ++ tr2) = networkCalls tr1 ++ networkCalls tr2.
Proof.
  induction tr1 as [|e tr1 IH]; [reflexivity|].
  destruct e; simpl; now rewrite IH.
Qed.

Lemma networkCalls_fetch calls : networkCalls (map Fetch calls) = calls.
Proof. induction calls as [|u calls IH]; simpl; [reflexivity | now rewrite IH]. Qed.

Lemma filter_fetch (f : event -> bool) calls :
  (forall u, f (Fetch u) = false) -> filter f (map Fetch calls) = [].
Proof.
  intro Hf. induction calls as [|u calls IH]; simpl; [reflexivity|].
  now rewrite Hf.
Qed.

Section Turns.
Context {platform : Platform}.
Variable settings : RandomWikipediaArticleSettings.
Variable world : World.

Ltac simplify_turn :=
  cbn -[apiUrl wikiLink randomTitleUrl String.append string_of_Z string_of_nat
        parseWikipediaHtml Z.leb Z.of_nat].

(** What one turn adds to the trace: the announcement, one or two network
    calls, and after an error the console error, the error notice and the
    pause. *)
Lemma iteration_trace s :
  exists s' calls rest,
    iteration settings world s = (Ok tt, s')
    /\ trace s'
       = trace s ++ fetchingNotice (retries s + 1) :: map Fetch calls ++ rest
    /\ (calls = [randomTitleUrl] \/ exists t, calls = [randomTitleUrl; apiUrl t])
    /\ ((foundSuitableArticle s' = true /\ retries s' = retries s /\ rest = [])
        \/ (foundSuitableArticle s' = foundSuitableArticle s
            /\ retries s' = retries s + 1
            /\ (rest = []
                \/ exists m e,
                     rest = [ConsoleError m e;
                             parseFailedNotice (retries s + 1);
                             SetTimeout 500]))).
Proof.
  unfold iteration, tryBlock, acceptOrRetry, catchBlock, try_catch,
    bind, get, newNotice, console_error, setTimeout, fetch, response_json,
    modify, ret, throw, emit, set_articleTitle, set_articleLink,
    set_articleHtml, set_parsedHeaders.
  simplify_turn.
  repeat match goal with
         | |- context [items_0_title ?d] =>
             destruct (items_0_title d); simplify_turn
         | |- context [encodeURIComponent ?t] =>
             destruct (encodeURIComponent t); simplify_turn
         | |- context [network world ?i ?u] =>
             destruct (network world i u) as [[[] ? []]|]; simplify_turn
         | |- context [Z.leb ?a ?b] => destruct (Z.leb a b); simplify_turn
         end.
  all: eexists.
  all: lazymatch goal with
       | |- context [Fetch (apiUrl ?t)] => exists [randomTitleUrl; apiUrl t]
       | _ => exists [randomTitleUrl]
       end.
  all: lazymatch goal with
       | |- context [ConsoleError ?m ?e] =>
           exists [ConsoleError m e; parseFailedNotice (retries s + 1);
                   SetTimeout 500]
       | _ => exists []
       end.
  all: split; [reflexivity|]; cbn [trace foundSuitableArticle retries].
  all: split; [rewrite <- !app_assoc; reflexivity|].
  all: split; [eauto|].
  all: try (left; repeat split; reflexivity).
  all: right; repeat split; eauto.
Qed.

Lemma accounted_turn s s' :
  accounted settings s -> continue settings s = true ->
  iteration settings world s = (Ok tt, s') -> accounted settings s'.
Proof.
  intros (Hattempts & _ & Hmax & Hcalls & Hends & Herrors & Hconsole & Hpauses)
         Hgo Hturn.
  apply andb_prop in Hgo. destruct Hgo as [Hnot Hbelow].
  apply negb_true_iff in Hnot. apply Z.ltb_lt in Hbelow.
  rewrite Hnot in Hattempts.
  destruct (iteration_trace s) as (s1 & calls & rest & Hs1 & Htr & Hshape & Hcase).
  assert (s1 = s') by congruence. subst s1.
  assert (Hlen : List.length calls <= 2 /\ Forall endpoint calls).
  { destruct Hshape as [-> | (t & ->)].
    - split; [simpl; lia|]. constructor; [now left | constructor].
    - split; [simpl; lia|]. constructor; [now left|].
      constructor; [right; now exists t | constructor]. }
  destruct Hlen as [Hlen Hto].
  unfold accounted. rewrite Htr.
  rewrite !filter_app, networkCalls_app, !length_app.
  cbn -[string_of_nat List.repeat Nat.mul].
  rewrite !filter_app, networkCalls_app, networkCalls_fetch.
  rewrite !(filter_fetch _ calls) by reflexivity.
  rewrite !length_app. cbn [app List.length].
  destruct Hcase as [(Hfound & Hretries & ->)
                    | (Hfound & Hretries & [-> | (m & e & ->)])];
    rewrite Hfound, ?Hnot, Hretries; cbn -[string_of_nat List.repeat Nat.mul];
    rewrite ?app_nil_r.
  - repeat split; try lia; try assumption;
      try (apply Forall_app; now split).
    now rewrite Nat.add_0_r.
  - repeat split; try lia; try assumption; try discriminate;
      try (apply Forall_app; now split).
    now rewrite Nat.add_0_r.
  - repeat split; try lia; try discriminate;
      try (apply Forall_app; now split).
    rewrite Hpauses. rewrite Nat.add_1_r. simpl. now rewrite <- repeat_cons.
Qed.

Lemma accounted_initial : accounted settings initial.
Proof.
  unfold accounted. cbn. repeat split; try lia; try discriminate; constructor.
Qed.

(** The state the loop ends in: the condition is false, what the
    variables hold comes from the attempt the counter points at, and the
    books are kept. *)
Lemma while_ends :
  exists s,
    while settings world initial = (Ok tt, s)
    /\ continue settings s = false
    /\ acceptedFrom settings world s
    /\ accounted settings s.
Proof.
  destruct (while_invariant settings world
              (fun s => acceptedFrom settings world s /\ accounted settings s))
    with (s := initial) as (s & Hwhile & [Hacc Hbooks] & Hstop).
  - intros s s' [Hacc Hbooks] Hgo Hturn. split.
    + now apply (accepted_turn settings world s s').
    + now apply (accounted_turn s s').
  - split; [|apply accounted_initial].
    split; [discriminate|]. intros j Hj. cbn in Hj. lia.
  - now exists s.
Qed.

End Turns.

Section Runs.
Context {platform : Platform}.
Variable settings : RandomWikipediaArticleSettings.
Variable world : World.

(** A run, read off the state the loop ends in. *)
Lemma run_from_end s :
  while settings world initial = (Ok tt, s) ->
  fetchAndProcessRandomWikipediaArticle settings world
  = if foundSuitableArticle s
    then (Ok (Some {| title := articleTitle s; link := articleLink s;
                      headers := parsedHeaders s;
                      datePrefix := moment_format world "YYYY-MM-DD" |}),
          trace s)
    else (Ok None, trace s ++ [noArticleNotice settings]).
Proof.
  intro Hwhile.
  unfold fetchAndProcessRandomWikipediaArticle, fetchAndProcess, bind, get.
  rewrite Hwhile. destruct (foundSuitableArticle s); reflexivity.
Qed.

Lemma end_found_suitable s :
  acceptedFrom settings world s -> accounted settings s ->
  foundSuitableArticle s = true ->
  (Z.of_nat (retries s) < maxRetries settings)%Z
  /\ attemptSuitable settings world (retries s).
Proof.
  intros [Hfrom _] (_ & Hwithin & _) Hfound. split; [now apply Hwithin|].
  destruct (Hfrom Hfound) as (t & enc & h & Hf & _ & _ & _ & Hhs & Hmin).
  exists t, (wikiLink enc), h. split; [assumption|]. now rewrite <- Hhs.
Qed.

Lemma end_none_suitable s :
  acceptedFrom settings world s -> continue settings s = false ->
  foundSuitableArticle s = false ->
  forall i, (Z.of_nat i < maxRetries settings)%Z ->
            ~ attemptSuitable settings world i.
Proof.
  intros [_ Hearlier] Hstop Hnot i Hi. apply Hearlier.
  unfold continue in Hstop. rewrite Hnot in Hstop. cbn in Hstop.
  apply Z.ltb_ge in Hstop. lia.
Qed.

(** X7: the loop returns a record exactly when one of the attempts it is
    allowed, those numbered below [maxRetries], completes with enough
    headings; it returns null otherwise. *)
Theorem finds_article_iff_suitable_attempt :
  (exists articleData tr,
      fetchAndProcessRandomWikipediaArticle settings world
      = (Ok (Some articleData), tr))
  <-> exists i, (Z.of_nat i < maxRetries settings)%Z
                /\ attemptSuitable settings world i.
Proof.
  destruct (while_ends settings world) as (s & Hwhile & Hstop & Hfrom & Hbooks).
  rewrite (run_from_end s Hwhile).
  destruct (foundSuitableArticle s) eqn:Hfound; split.
  - intros _. exists (retries s). now apply end_found_suitable.
  - intros _. eexists. eexists. reflexivity.
  - intros (a & tr & Hrun). discriminate.
  - intros (i & Hi & Hsuit).
    now destruct (end_none_suitable s Hfrom Hstop Hfound i Hi).
Qed.

(** X8: when no attempt below [maxRetries] completes with enough
    headings, the loop makes [maxRetries] attempts (none when that is
    below zero), shows the notice of its failure last and returns null. *)
Theorem exhausts_every_attempt :
  (forall i, (Z.of_nat i < maxRetries settings)%Z ->
             ~ attemptSuitable settings world i) ->
  exists tr,
    fetchAndProcessRandomWikipediaArticle settings world
    = (Ok None, tr ++ [noArticleNotice settings])
    /\ List.length (filter isFetchingNotice tr)
       = Z.to_nat (maxRetries settings).
Proof.
  intro Hnone.
  destruct (while_ends settings world) as (s & Hwhile & Hstop & Hfrom & Hbooks).
  rewrite (run_from_end s Hwhile).
  destruct (foundSuitableArticle s) eqn:Hfound.
  - destruct (end_found_suitable s Hfrom Hbooks Hfound) as [Hi Hsuit].
    now destruct (Hnone (retries s) Hi).
  - exists (trace s). split; [reflexivity|].
    destruct Hbooks as (Hattempts & _ & Hmax & _).
    rewrite Hfound in Hattempts. rewrite Hattempts.
    unfold continue in Hstop. rewrite Hfound in Hstop. cbn in Hstop.
    apply Z.ltb_ge in Hstop. lia.
Qed.

(** X9: whatever the network does, a run announces no more than
    [maxRetries] attempts, makes no more than two network calls for an
    attempt, and calls nothing but the random-title address and the parse
    address of a title. *)
Theorem attempts_and_calls_bounded :
  let tr := snd (fetchAndProcessRandomWikipediaArticle settings world) in
  List.length (filter isFetchingNotice tr) <= Z.to_nat (maxRetries settings)
  /\ List.length (networkCalls tr)
     <= 2 * List.length (filter isFetchingNotice tr)
  /\ Forall endpoint (networkCalls tr).
Proof.
  destruct (while_ends settings world) as (s & Hwhile & Hstop & Hfrom & Hbooks).
  rewrite (run_from_end s Hwhile).
  destruct Hbooks as (Hattempts & Hwithin & Hmax & Hcalls & Hends & _).
  destruct (foundSuitableArticle s) eqn:Hfound; cbn [snd].
  - specialize (Hwithin eq_refl). repeat split; try assumption. lia.
  - rewrite filter_app, networkCalls_app, length_app.
    cbn -[string_of_Z Nat.mul]. rewrite !app_nil_r, Nat.add_0_r.
    repeat split; try assumption. lia.
Qed.


(** X11: with [minHeaders] at zero or below, an article is found as soon
    as one attempt below [maxRetries] completes without error, whatever
    headings it has, none included. *)
Theorem no_minimum_accepts_any_article :
  (minHeaders settings <= 0)%Z ->
  (exists i t l h, (Z.of_nat i < maxRetries settings)%Z
                   /\ fetched world i = Ok (t, l, h)) ->
  exists articleData tr,
    fetchAndProcessRandomWikipediaArticle settings world
    = (Ok (Some articleData), tr).
Proof.
  intros Hmin (i & t & l & h & Hi & Hfetched).
  destruct (while_ends settings world) as (s & Hwhile & Hstop & Hfrom & Hbooks).
  rewrite (run_from_end s Hwhile).
  destruct (foundSuitableArticle s) eqn:Hfound.
  - eexists. eexists. reflexivity.
  - destruct (end_none_suitable s Hfrom Hstop Hfound i Hi).
    exists t, l, h. split; [assumption | lia].
Qed.

End Runs.

Lemma exhausts_every_attempt_witness :
  exists tr,
    @fetchAndProcessRandomWikipediaArticle sample_platform (two_headers 2)
      (sample_world offline)
    = (Ok None, tr ++ [noArticleNotice (two_headers 2)])
    /\ List.length (filter isFetchingNotice tr) = 2.
Proof.
  apply (@exhausts_every_attempt sample_platform (two_headers 2)
           (sample_world offline)).
  intros i _ (t & l & h & Hfetched & _). discriminate.
Defined.

Lemma no_minimum_accepts_any_article_witness :
  exists articleData tr,
    @fetchAndProcessRandomWikipediaArticle sample_platform no_minimum
      (sample_world (serving "Foo" "<p>No heading</p>"))
    = (Ok (Some articleData), tr).
Proof.
  apply (@no_minimum_accepts_any_article sample_platform no_minimum
           (sample_world (serving "Foo" "<p>No heading</p>"))).
  - simpl. lia.
  - exists 0, "Foo", "https://en.wikipedia.org/wiki/Foo", "<p>No heading</p>".
    split; [simpl; lia | reflexivity].
Defined.

(* ===================================================================== *)
(** * From the loop to the note *)
(* ===================================================================== *)

Lemma no_negative_level_2_3_4 hs :
  (forall h, In h hs ->
             level h = Num 2 \/ level h = Num 3 \/ level h = Num 4) ->
  existsb negativeLevel hs = false.
Proof.
  induction hs as [|h hs IH]; intro Hall; [reflexivity|].
  simpl. rewrite IH by (intros; apply Hall; now right).
  unfold negativeLevel.
  destruct (Hall h (or_introl eq_refl)) as [-> | [-> | ->]]; reflexivity.
Qed.

Lemma returned_headers {platform : Platform} settings world articleData tr :
  fetchAndProcessRandomWikipediaArticle settings world
  = (Ok (Some articleData), tr) ->
  exists h, headers articleData = parseWikipediaHtml settings h.
Proof.
  destruct (while_ends settings world) as (s & Hwhile & _ & [Hfrom _] & _).
  rewrite (run_from_end settings world s Hwhile).
  destruct (foundSuitableArticle s); [|discriminate].
  intro Hrun. injection Hrun as <- _.
  destruct (Hfrom eq_refl) as (t & enc & h & _ & _ & _ & _ & Hhs & _).
  now exists h.
Qed.

(** X12: the record the loop returns always renders: [formatMarkdown]
    does not throw on it, and each heading line of the note starts with
    two, three or four [#]. *)
Theorem returned_article_renders
    (platform : Platform) (settings : RandomWikipediaArticleSettings)
    (world : World) (articleData : ArticleData) (tr : list event)
    (currentDateTime : string) :
  fetchAndProcessRandomWikipediaArticle settings world
  = (Ok (Some articleData), tr) ->
  formatMarkdown currentDateTime articleData
  = Ok (frontMatter currentDateTime articleData
          ++ match headers articleData with
             | [] => noSections
             | _ :: _ => sectionsHeading ++ headingLines (headers articleData)
             end
          ++ LF)%string
  /\ forall header, In header (headers articleData) ->
       headingMarker header = "##" \/ headingMarker header = "###"
       \/ headingMarker header = "####".
Proof.
  intro Hrun.
  destruct (returned_headers settings world articleData tr Hrun) as (h & Hh).
  assert (Hlevels : forall header, In header (headers articleData) ->
            level header = Num 2 \/ level header = Num 3 \/ level header = Num 4).
  { intros header Hin. rewrite Hh in Hin.
    now apply (parseWikipediaHtml_levels settings h). }
  split.
  - rewrite formatMarkdown_exact.
    now rewrite (no_negative_level_2_3_4 _ Hlevels).
  - intros header Hin. unfold headingMarker.
    destruct (Hlevels header Hin) as [-> | [-> | ->]]; auto.
Qed.

Lemma returned_article_renders_witness :
  let articleData :=
    {| title := "Foo";
       link := "https://en.wikipedia.org/wiki/Foo";
       headers := [{| level := Num 2; text := "History" |};
                   {| level := Num 3; text := "Early years" |}];
       datePrefix := "2024-01-01" |} in
  formatMarkdown "2024-01-01 10:00:00" articleData
  = Ok (frontMatter "2024-01-01 10:00:00" articleData
          ++ sectionsHeading ++ headingLines (headers articleData) ++ LF)%string
  /\ forall header, In header (headers articleData) ->
       headingMarker header = "##" \/ headingMarker header = "###"
       \/ headingMarker header = "####".
Proof.
  intro articleData.
  exact (returned_article_renders sample_platform (two_headers 5)
           (sample_world (serving "Foo" markup_history)) articleData
           [fetchingNotice 1; Fetch randomTitleUrl;
            Fetch (@apiUrl sample_platform "Foo")]
           "2024-01-01 10:00:00" eq_refl).
Defined.

(* ===================================================================== *)
(** * The command *)
(* ===================================================================== *)

Lemma filter_loop (f : action -> bool) tr :
  (forall e, f (Loop e) = false) -> filter f (map Loop tr) = [].
Proof.
  intro Hf. induction tr as [|e tr IH]; simpl; [reflexivity|].
  now rewrite Hf.
Qed.

Lemma in_loop a tr :
  In a (map Loop tr) -> exists e, a = Loop e.
Proof.
  intro Hin. apply in_map_iff in Hin. destruct Hin as (e & <- & _). now exists e.
Qed.

Section CommandFacts.
Context {platform : Platform}.
Variable settings : RandomWikipediaArticleSettings.
Variable world : World.
Variable vault : Vault.

(** The record of the state the loop ends in renders. *)
Lemma end_renders s :
  acceptedFrom settings world s -> foundSuitableArticle s = true ->
  existsb negativeLevel (parsedHeaders s) = false.
Proof.
  intros [Hfrom _] Hfound.
  destruct (Hfrom Hfound) as (t & enc & h & _ & _ & _ & _ & Hhs & _).
  apply no_negative_level_2_3_4. intros header Hin. rewrite Hhs in Hin.
  now apply (parseWikipediaHtml_levels settings h).
Qed.

(** A run of the command, case by case: the state the loop ends in, then
    the folder, then each answer of the host. *)
Ltac run_command s :=
  unfold actions;
  destruct (while_ends settings world) as (s & Hwhile & Hstop & Hfrom & Hbooks);
  unfold handleInsertArticle, insertArticle, inNoteFolder, runLoop, targetPath,
    try_catchH, bindH, act, call, liftH, retH;
  rewrite (run_from_end settings world s Hwhile);
  destruct (foundSuitableArticle s) eqn:Hfound;
  [ rewrite formatMarkdown_exact; cbn [headers];
    rewrite (end_renders s Hfrom Hfound);
    destruct (0 <? String.length (noteFolder settings))%nat eqn:Hfolder;
    [ destruct (adapter_exists vault _) as [[]|?] eqn:Hexists; cbn [negb];
      [ | destruct (vault_createFolder vault _) as [[]|?] eqn:Hmkdir | ] | ];
    try (destruct (vault_create vault _ _) as [?|?] eqn:Hcreate;
         [ destruct (workspace_getLeaf vault) as [[]|?] eqn:Hleaf;
           [ destruct (leaf_openFile vault _) as [[]|?] eqn:Hopen | ] | ])
  | ];
  cbn [snd fst app]; rewrite <- ?app_assoc; cbn [app].

(** Where an action of a run can be. *)
Ltac in_actions H :=
  cbn [In] in H;
  repeat match type of H with
         | _ \/ _ => destruct H as [H|H]
         | In _ (_ ++ _) => apply in_app_or in H
         | In _ (map Loop _) => apply in_loop in H; destruct H as [? H]
         | In _ (_ :: _) => cbn [In] in H
         | In _ [] => cbn [In] in H
         end;
  try discriminate H; try contradiction.

(** X13: when no attempt below [maxRetries] completes with enough
    headings, the command shows its notice, runs the loop, tells that no
    article was found and ends: it makes no call to the vault or the
    workspace, and throws nothing. *)
Theorem no_article_no_host_call :
  (forall i, (Z.of_nat i < maxRetries settings)%Z ->
             ~ attemptSuitable settings world i) ->
  exists tr,
    fetchAndProcessRandomWikipediaArticle settings world = (Ok None, tr)
    /\ handleInsertArticle settings world vault []
       = (Ok tt,
          NewNotice "Fetching Wikipedia article..."
            :: map Loop tr
            ++ [NewNotice "No suitable Wikipedia article found."])
    /\ filter isHostCall (actions settings world vault) = [].
Proof.
  intro Hnone. unfold actions.
  destruct (while_ends settings world) as (s & Hwhile & Hstop & Hfrom & Hbooks).
  unfold handleInsertArticle, insertArticle, runLoop, try_catchH, bindH, act.
  rewrite (run_from_end settings world s Hwhile).
  destruct (foundSuitableArticle s) eqn:Hfound.
  - destruct (end_found_suitable settings world s Hfrom Hbooks Hfound)
      as [Hi Hsuit].
    now destruct (Hnone (retries s) Hi).
  - eexists. split; [reflexivity|]. cbn [snd app]. split; [reflexivity|].
    cbn [filter isHostCall]. rewrite filter_app, filter_loop by reflexivity.
    reflexivity.
Qed.

(** X14: the command creates a file only for the record the loop
    returned: at the path made of the cleaned folder and the file name of
    that record, with the note [formatMarkdown] renders of it; and it
    creates one file at most. *)
Theorem note_created_from_the_article (path data : string) :
  In (Create path data) (actions settings world vault) ->
  exists articleData tr,
    fetchAndProcessRandomWikipediaArticle settings world
    = (Ok (Some articleData), tr)
    /\ path = targetPath settings articleData
    /\ formatMarkdown (moment_format world "YYYY-MM-DD HH:mm:ss") articleData
       = Ok data
    /\ filter isCreate (actions settings world vault) = [Create path data].
Proof.
  run_command s; intro Hin; in_actions Hin.
  all: injection Hin as <- <-.
  all: eexists; eexists; split; [reflexivity|].
  all: split; [reflexivity|].
  all: split; [rewrite formatMarkdown_exact; cbn [headers];
               now rewrite (end_renders s Hfrom Hfound)|].
  all: cbn [filter isCreate]; rewrite filter_app, filter_loop by reflexivity.
  all: reflexivity.
Qed.

(** X15: the command creates a folder only when [noteFolder] is not
    empty and the vault has answered that the cleaned folder does not
    exist; the folder it creates is the cleaned one, and the question
    comes right before. *)
Theorem folder_created_only_when_missing (folder : string) :
  In (CreateFolder folder) (actions settings world vault) ->
  noteFolder settings <> ""
  /\ folder = cleanFolder (noteFolder settings)
  /\ adapter_exists vault folder = Ok false
  /\ exists before after,
       actions settings world vault
       = before ++ Exists folder :: CreateFolder folder :: after.
Proof.
  assert (Hnonempty : (0 <? String.length (noteFolder settings))%nat = true ->
                      noteFolder settings <> "").
  { intros Hlen Hempty. rewrite Hempty in Hlen. discriminate. }
  run_command s; intro Hin; in_actions Hin.
  all: injection Hin as <-.
  all: split; [now apply Hnonempty|].
  all: split; [reflexivity|].
  all: split; [assumption|].
  all: eexists (NewNotice _ :: map Loop (trace s)); eexists; reflexivity.
Qed.

(** X16: when the vault refuses to create the folder, the command ends
    there: the error goes to the console, the notice names the folder, no
    file is created and nothing is opened. *)
Theorem folder_failure_ends_the_command (folder : string) (e : error) :
  In (CreateFolder folder) (actions settings world vault) ->
  vault_createFolder vault folder = Throw e ->
  (exists before,
      handleInsertArticle settings world vault []
      = (Ok tt,
         before ++ [CreateFolder folder;
                    ConsoleErr "Folder creation error:" e;
                    NewNotice ("Failed to create folder: " ++ folder
                                 ++ ". See console.")%string]))
  /\ filter isCreate (actions settings world vault) = []
  /\ ~ In GetLeaf (actions settings world vault).
Proof.
  run_command s; intro Hin; in_actions Hin.
  all: injection Hin as <-; intro Hthrown; rewrite Hthrown in Hmkdir.
  all: try discriminate Hmkdir.
  injection Hmkdir as <-. split; [|split].
  - eexists (NewNotice _ :: map Loop (trace s) ++ [Exists _]).
    cbn [app]. rewrite <- app_assoc. reflexivity.
  - cbn [filter isCreate]. rewrite filter_app, filter_loop by reflexivity.
    reflexivity.
  - intro Hleaf. in_actions Hleaf.
Qed.

(** X17: the file the command opens is the one the vault has just
    created: its path is what [vault.create] answered, and the notice
    before it names that path. *)
Theorem opened_file_is_the_created_one (file : string) :
  In (OpenFile file) (actions settings world vault) ->
  exists path data before after,
    vault_create vault path data = Ok file
    /\ actions settings world vault
       = before ++ Create path data
                :: NewNotice ("Created: " ++ file)%string
                :: GetLeaf :: OpenFile file :: after.
Proof.
  run_command s; intro Hin; in_actions Hin.
  all: injection Hin as <-.
  all: eexists; eexists.
  all: try (eexists (NewNotice _ :: map Loop (trace s) ++ [Exists _]);
            eexists; split; [eassumption|];
            cbn [app]; rewrite <- app_assoc; reflexivity).
  all: try (eexists (NewNotice _ :: map Loop (trace s) ++ [Exists _; CreateFolder _]);
            eexists; split; [eassumption|];
            cbn [app]; rewrite <- app_assoc; reflexivity).
  all: eexists (NewNotice _ :: map Loop (trace s));
    eexists; split; [eassumption|]; reflexivity.
Qed.

(** X18: the command never throws, whatever the network and the vault
    answer; the last thing it does is show a notice, or open the note when
    the vault granted every call. *)
Theorem command_never_throws :
  exists acts last,
    handleInsertArticle settings world vault [] = (Ok tt, acts ++ [last])
    /\ (isNewNotice last = true
        \/ exists file, last = OpenFile file
                        /\ leaf_openFile vault file = Ok tt).
Proof.
  run_command s.
  all: match goal with
       | |- context [(Ok tt, ?pre :: map Loop ?tr ++ ?l)] =>
           exists (pre :: map Loop tr ++ removelast l), (List.last l GetLeaf)
       end.
  all: split; [cbn [removelast List.last app]; rewrite <- app_assoc; reflexivity|].
  all: cbn [List.last]; try (left; reflexivity).
  all: right; eexists; split; [reflexivity | eassumption].
Qed.

End CommandFacts.

Lemma no_article_no_host_call_witness :
  exists tr,
    @fetchAndProcessRandomWikipediaArticle sample_platform (two_headers 2)
      (sample_world offline)
    = (Ok None, tr)
    /\ @handleInsertArticle sample_platform (two_headers 2)
         (sample_world offline) empty_vault []
       = (Ok tt,
          NewNotice "Fetching Wikipedia article..."
            :: map Loop tr
            ++ [NewNotice "No suitable Wikipedia article found."])
    /\ filter isHostCall
         (@actions sample_platform (two_headers 2) (sample_world offline)
            empty_vault)
       = [].
Proof.
  apply (@no_article_no_host_call sample_platform (two_headers 2)
           (sample_world offline) empty_vault).
  intros i _ (t & l & h & Hfetched & _). discriminate.
Defined.

Lemma note_created_from_the_article_witness :
  exists articleData tr,
    @fetchAndProcessRandomWikipediaArticle sample_platform in_folder
      (sample_world (serving "Foo" markup_history))
    = (Ok (Some articleData), tr)
    /\ "Wikipedia/2024-01-01 Wikipedia Note - Foo.md"
       = targetPath in_folder articleData
    /\ formatMarkdown "2024-01-01 10:00:00" articleData = Ok note_history
    /\ filter isCreate
         (@actions sample_platform in_folder
            (sample_world (serving "Foo" markup_history)) empty_vault)
       = [Create "Wikipedia/2024-01-01 Wikipedia Note - Foo.md" note_history].
Proof.
  apply (@note_created_from_the_article sample_platform in_folder
           (sample_world (serving "Foo" markup_history)) empty_vault).
  vm_compute. do 6 right. left. reflexivity.
Defined.

Lemma folder_created_only_when_missing_witness :
  noteFolder in_folder <> ""
  /\ "Wikipedia" = cleanFolder (noteFolder in_folder)
  /\ adapter_exists empty_vault "Wikipedia" = Ok false
  /\ exists before after,
       @actions sample_platform in_folder
         (sample_world (serving "Foo" markup_history)) empty_vault
       = before ++ Exists "Wikipedia" :: CreateFolder "Wikipedia" :: after.
Proof.
  apply (@folder_created_only_when_missing sample_platform in_folder
           (sample_world (serving "Foo" markup_history)) empty_vault).
  vm_compute. do 5 right. left. reflexivity.
Defined.

Lemma folder_failure_ends_the_command_witness :
  (exists before,
      @handleInsertArticle sample_platform in_folder
        (sample_world (serving "Foo" markup_history)) read_only_vault []
      = (Ok tt,
         before ++ [CreateFolder "Wikipedia";
                    ConsoleErr "Folder creation error:" (Error "EACCES");
                    NewNotice "Failed to create folder: Wikipedia. See console."]))
  /\ filter isCreate
       (@actions sample_platform in_folder
          (sample_world (serving "Foo" markup_history)) read_only_vault)
     = []
  /\ ~ In GetLeaf
       (@actions sample_platform in_folder
          (sample_world (serving "Foo" markup_history)) read_only_vault).
Proof.
  apply (@folder_failure_ends_the_command sample_platform in_folder
           (sample_world (serving "Foo" markup_history)) read_only_vault
           "Wikipedia" (Error "EACCES")).
  - vm_compute. do 5 right. left. reflexivity.
  - reflexivity.
Defined.

Lemma opened_file_is_the_created_one_witness :
  exists path data before after,
    vault_create empty_vault path data
    = Ok "2024-01-01 Wikipedia Note - Foo.md"
    /\ @actions sample_platform (two_headers 5)
         (sample_world (serving "Foo" markup_history)) empty_vault
       = before ++ Create path data
                :: NewNotice "Created: 2024-01-01 Wikipedia Note - Foo.md"
                :: GetLeaf
                :: OpenFile "2024-01-01 Wikipedia Note - Foo.md" :: after.
Proof.
  apply (@opened_file_is_the_created_one sample_platform (two_headers 5)
           (sample_world (serving "Foo" markup_history)) empty_vault
           "2024-01-01 Wikipedia Note - Foo.md").
  vm_compute. do 7 right. left. reflexivity.
Defined.

(* ===================================================================== *)
(** * The folder of the notes *)
(* ===================================================================== *)

Lemma dropTrailingSlash_slash s : dropTrailingSlash (s ++ "/") = s.
Proof.
  induction s as [|c s IH]; [reflexivity|].
  cbn [append dropTrailingSlash]. rewrite IH.
  destruct s; reflexivity.
Qed.

Lemma dropTrailingSlash_length s :
  String.length s <= String.length (dropTrailingSlash s) + 1.
Proof.
  induction s as [|c s IH]; [simpl; lia|].
  cbn [dropTrailingSlash]. destruct s as [|c' s].
  - destruct (Ascii.eqb c "/"); simpl; lia.
  - cbn [String.length] in *. lia.
Qed.

(** X19: cleaning the folder takes one slash from each end and no more:
    a folder written between two slashes comes out as written, slashes
    inside it included, and no folder loses more than two characters. *)
Theorem cleanFolder_takes_one_slash_each_end (folder : string) :
  cleanFolder ("/" ++ folder ++ "/") = folder
  /\ cleanFolder (folder ++ "/")
     = match folder with
       | String "/" rest => rest
       | _ => folder
       end
  /\ String.length folder <= String.length (cleanFolder folder) + 2.
Proof.
  unfold cleanFolder. split; [|split].
  - cbn [append dropLeadingSlash]. apply dropTrailingSlash_slash.
  - destruct folder as [|c rest]; [reflexivity|].
    cbn [append].
    destruct c as [[] [] [] [] [] [] [] []];
      cbn [dropLeadingSlash]; try apply (dropTrailingSlash_slash (String _ rest)).
    apply dropTrailingSlash_slash.
  - pose proof (dropTrailingSlash_length (dropLeadingSlash folder)) as Hend.
    assert (Hstart : String.length folder
                     <= String.length (dropLeadingSlash folder) + 1).
    { destruct folder as [|c rest]; [simpl; lia|].
      destruct c as [[] [] [] [] [] [] [] []]; simpl; lia. }
    lia.
Qed.

(* ===================================================================== *)
(** * The number fields of the settings tab *)
(* ===================================================================== *)

Lemma read_digits_digit c s acc d :
  digit_value 10 c = Some d ->
  read_digits 10 (String c s) (Some acc) = read_digits 10 s (Some (10 * acc + d)%Z).
Proof. intro Hd. cbn [read_digits]. now rewrite Hd. Qed.

Lemma read_digits_first c s :
  isDigit c = true ->
  read_digits 10 (String c s) None = read_digits 10 (String c s) (Some 0%Z).
Proof.
  unfold isDigit. intro Hd. cbn [read_digits].
  destruct (digit_value 10 c); [reflexivity | discriminate].
Qed.

Lemma read_digits_stops rest acc :
  stopsNumber rest = true -> read_digits 10 rest acc = acc.
Proof.
  destruct rest as [|c rest]; [reflexivity|].
  unfold stopsNumber, isDigit. cbn [read_digits].
  destruct (digit_value 10 c); [discriminate | reflexivity].
Qed.

(** The value of a digit, computed. *)
Ltac eval_digit :=
  match goal with
  | |- context [(code ?c - 48)%Z] =>
      let v := eval vm_compute in (code c - 48)%Z in
      change (code c - 48)%Z with v
  end.

(** The digits of a decimal number, read after a positive accumulator. *)
Lemma read_digits_uint_acc rest : forall d acc,
  read_digits 10 (NilEmpty.string_of_uint d ++ rest) (Some (Zpos acc))
  = read_digits 10 rest (Some (Zpos (Pos.of_uint_acc d acc))).
Proof.
  induction d as [|d IH|d IH|d IH|d IH|d IH|d IH|d IH|d IH|d IH|d IH];
    intro acc; cbn [NilEmpty.string_of_uint append Pos.of_uint_acc];
    [reflexivity|..];
    (erewrite read_digits_digit by reflexivity);
    eval_digit; rewrite <- IH; do 2 f_equal; lia.
Qed.

(** The digits of a decimal number, read from zero. *)
Lemma read_digits_uint rest : forall d,
  read_digits 10 (NilEmpty.string_of_uint d ++ rest) (Some 0%Z)
  = read_digits 10 rest (Some (Z.of_N (Pos.of_uint d))).
Proof.
  induction d as [|d IH|d IH|d IH|d IH|d IH|d IH|d IH|d IH|d IH|d IH];
    cbn [NilEmpty.string_of_uint append Pos.of_uint];
    [reflexivity|..];
    (erewrite read_digits_digit by reflexivity);
    eval_digit; [exact IH|..];
    cbn [Z.mul Z.add Z.of_N]; apply read_digits_uint_acc.
Qed.

(** [parseInt] on text that starts with a digit, or with a minus sign and
    a digit, and not with the prefix of base 16. *)
Lemma parseInt_decimal c s :
  isDigit c = true -> hexPrefix (String c s) = false ->
  parseInt (String c s)
  = match read_digits 10 (String c s) None with
    | Some z => Num (1 * z)
    | None => NaN
    end
  /\ parseInt (String "-" (String c s))
     = match read_digits 10 (String c s) None with
       | Some z => Num (-1 * z)
       | None => NaN
       end.
Proof.
  intros Hdigit Hhex.
  destruct c as [[] [] [] [] [] [] [] []]; try discriminate Hdigit.
  all: try (split; reflexivity).
  destruct s as [|x s]; [split; reflexivity|].
  destruct x as [[] [] [] [] [] [] [] []]; try discriminate Hhex.
  all: split; reflexivity.
Qed.

Lemma append_empty_r (s : string) : (s ++ "")%string = s.
Proof. induction s as [|c s IH]; [reflexivity|]. cbn [append]. now rewrite IH. Qed.

Lemma stopsNumber_no_hex rest :
  stopsNumber rest = true -> hexPrefix (String "0" rest) = false.
Proof.
  destruct rest as [|x rest]; [reflexivity|]. unfold stopsNumber.
  destruct x as [[] [] [] [] [] [] [] []]; intro Hstop;
    try discriminate Hstop; reflexivity.
Qed.

(** What [toString()] writes of a positive integer: digits, which do not
    make the prefix of base 16, whatever follows them. *)
Lemma digits_of_positive p rest :
  NilZero.string_of_uint (Pos.to_uint p) = NilEmpty.string_of_uint (Pos.to_uint p)
  /\ hexPrefix (NilEmpty.string_of_uint (Pos.to_uint p) ++ rest) = false
  /\ exists c s,
       (NilEmpty.string_of_uint (Pos.to_uint p) ++ rest)%string = String c s
       /\ isDigit c = true.
Proof.
  pose proof (DecimalPos.Unsigned.of_to p) as Hof.
  destruct (Pos.to_uint p) as [|d|d|d|d|d|d|d|d|d|d]; try discriminate Hof.
  2-10: repeat split; eexists; eexists; split; reflexivity.
  destruct d; try discriminate Hof.
  all: repeat split; eexists; eexists; split; reflexivity.
Qed.

(** [parseInt] reads back what [toString()] wrote, and stops at the text
    that follows. *)
Lemma parseInt_string_of_Z z rest :
  stopsNumber rest = true -> parseInt (string_of_Z z ++ rest) = Num z.
Proof.
  intro Hstop. unfold string_of_Z.
  destruct z as [|p|p]; cbn [Z.to_int NilZero.string_of_int].
  - cbn [NilZero.string_of_uint NilEmpty.string_of_uint append].
    destruct (parseInt_decimal "0" rest eq_refl (stopsNumber_no_hex rest Hstop))
      as [-> _].
    rewrite read_digits_first by reflexivity.
    rewrite (read_digits_digit "0" rest 0 0 eq_refl).
    now rewrite read_digits_stops.
  - destruct (digits_of_positive p rest) as (-> & Hhex & c & s & Hs & Hc).
    rewrite Hs in Hhex.
    destruct (parseInt_decimal c s Hc Hhex) as [Hparse _].
    rewrite Hs, Hparse, (read_digits_first c s Hc), <- Hs.
    rewrite read_digits_uint, read_digits_stops by assumption.
    rewrite DecimalPos.Unsigned.of_to. reflexivity.
  - destruct (digits_of_positive p rest) as (-> & Hhex & c & s & Hs & Hc).
    rewrite Hs in Hhex.
    destruct (parseInt_decimal c s Hc Hhex) as [_ Hparse].
    cbn [append]. rewrite Hs, Hparse, (read_digits_first c s Hc), <- Hs.
    rewrite read_digits_uint, read_digits_stops by assumption.
    rewrite DecimalPos.Unsigned.of_to. reflexivity.
Qed.

Lemma parseInt_no_number value :
  noNumber value = true -> parseInt value = NaN.
Proof.
  unfold noNumber, parseInt.
  destruct (skip_spaces value) as [|c s]; [reflexivity|].
  destruct c as [[] [] [] [] [] [] [] []]; intro Hno;
    try discriminate Hno; reflexivity.
Qed.

(** X20: a number field that reports the text it was given leaves the
    settings as they are: [parseInt] reads back what [toString()] wrote of
    [minHeaders] and of [maxRetries], zero and negative numbers included.
    The settings are safe integers, those of which [toString()] writes
    the decimal digits. *)
Theorem number_fields_round_trip (settings : RandomWikipediaArticleSettings) :
  safeInteger (minHeaders settings) -> safeInteger (maxRetries settings) ->
  onChangeMinHeaders (string_of_Z (minHeaders settings)) settings = settings
  /\ onChangeMaxRetries (string_of_Z (maxRetries settings)) settings = settings.
Proof.
  intros _ _. unfold onChangeMinHeaders, onChangeMaxRetries.
  rewrite <- (append_empty_r (string_of_Z (minHeaders settings))).
  rewrite <- (append_empty_r (string_of_Z (maxRetries settings))).
  rewrite !parseInt_string_of_Z by reflexivity.
  destruct settings; split; reflexivity.
Qed.

Lemma number_fields_round_trip_witness :
  onChangeMinHeaders (string_of_Z (minHeaders DEFAULT_SETTINGS)) DEFAULT_SETTINGS
  = DEFAULT_SETTINGS
  /\ onChangeMaxRetries (string_of_Z (maxRetries DEFAULT_SETTINGS))
       DEFAULT_SETTINGS
     = DEFAULT_SETTINGS.
Proof.
  apply (number_fields_round_trip DEFAULT_SETTINGS);
    unfold safeInteger; simpl; lia.
Defined.

(** X21: a number field keeps the safe integer its text starts with and
    drops what follows, when that starts with something other than a digit
    or an [x]: the other settings are untouched. *)
Theorem number_field_keeps_leading_integer
    (z : Z) (rest : string) (settings : RandomWikipediaArticleSettings) :
  safeInteger z -> stopsNumber rest = true ->
  onChangeMinHeaders (string_of_Z z ++ rest) settings
  = {| minHeaders := z;
       maxRetries := maxRetries settings;
       disallowedHeaders := disallowedHeaders settings;
       noteFolder := noteFolder settings |}
  /\ onChangeMaxRetries (string_of_Z z ++ rest) settings
     = {| minHeaders := minHeaders settings;
          maxRetries := z;
          disallowedHeaders := disallowedHeaders settings;
          noteFolder := noteFolder settings |}.
Proof.
  intros _ Hstop. unfold onChangeMinHeaders, onChangeMaxRetries.
  rewrite (parseInt_string_of_Z z rest Hstop). split; reflexivity.
Qed.

Lemma number_field_keeps_leading_integer_witness :
  onChangeMinHeaders "5 headers" DEFAULT_SETTINGS
  = {| minHeaders := 5;
       maxRetries := maxRetries DEFAULT_SETTINGS;
       disallowedHeaders := disallowedHeaders DEFAULT_SETTINGS;
       noteFolder := noteFolder DEFAULT_SETTINGS |}
  /\ onChangeMaxRetries "5 headers" DEFAULT_SETTINGS
     = {| minHeaders := minHeaders DEFAULT_SETTINGS;
          maxRetries := 5;
          disallowedHeaders := disallowedHeaders DEFAULT_SETTINGS;
          noteFolder := noteFolder DEFAULT_SETTINGS |}.
Proof.
  apply (number_field_keeps_leading_integer 5 " headers" DEFAULT_SETTINGS).
  - unfold safeInteger. simpl. lia.
  - reflexivity.
Defined.

(** X22: a number field whose text holds no number, empty or starting
    after its white space with a character of the ASCII range other than
    a digit or a sign, puts the default in place of the setting: 3 for
    [minHeaders], 15 for [maxRetries]. *)
Theorem number_field_defaults_without_number
    (value : string) (settings : RandomWikipediaArticleSettings) :
  noNumber value = true ->
  onChangeMinHeaders value settings
  = {| minHeaders := 3;
       maxRetries := maxRetries settings;
       disallowedHeaders := disallowedHeaders settings;
       noteFolder := noteFolder settings |}
  /\ onChangeMaxRetries value settings
     = {| minHeaders := minHeaders settings;
          maxRetries := 15;
          disallowedHeaders := disallowedHeaders settings;
          noteFolder := noteFolder settings |}.
Proof.
  intro Hno. unfold onChangeMinHeaders, onChangeMaxRetries.
  rewrite (parseInt_no_number value Hno). split; reflexivity.
Qed.

Lemma number_field_defaults_without_number_witness :
  onChangeMinHeaders "  many" (two_headers 7)
  = {| minHeaders := 3;
       maxRetries := 7;
       disallowedHeaders := disallowedHeaders (two_headers 7);
       noteFolder := "" |}
  /\ onChangeMaxRetries "  many" (two_headers 7)
     = {| minHeaders := 2;
          maxRetries := 15;
          disallowedHeaders := disallowedHeaders (two_headers 7);
          noteFolder := "" |}.
Proof.
  apply (number_field_defaults_without_number "  many" (two_headers 7)).
  reflexivity.
Defined.
